(** * keycloak-auth-template: a shallow embedding of the backend-for-frontend

    The development follows the Python sources module by module:
    [Models] (models.py), [RoleManagement] (role_management.py), [Jose]
    (the two python-jose entry points that auth.py calls), [Auth]
    (auth.py), [UserService] (db_models.py and user_service.py) and [Main]
    (the route handlers of main.py).  Exceptions are values of [exn] carried
    by [outcome]; the relational table and the identity provider are explicit
    arguments.  A Python [str] is kept as the bytes of its UTF-8 encoding. *)

From Stdlib Require Import ZArith String Ascii List Bool Lia DecimalString.
From stdpp Require Import base gmap strings list.
Import ListNotations.

Open Scope string_scope.
Open Scope Z_scope.

(** ** Python exceptions and the outcome of a call *)

Inductive exn : Type :=
| HTTPException (status_code : Z) (detail : string)
| ValueError (msg : string)
| IntegrityError
| JWTError
| ExpiredSignatureError
| KeycloakAuthenticationError (msg : string)
| ValidationError
| OtherException (msg : string).

Inductive outcome (A : Type) : Type :=
| Return (a : A)
| Raise (e : exn).

Arguments Return {A} a.
Arguments Raise {A} e.

Definition bind {A B : Type} (m : outcome A) (k : A -> outcome B) : outcome B :=
  match m with
  | Return a => k a
  | Raise e => Raise e
  end.

Notation "x <- m ;; k" := (bind m (fun x => k))
  (at level 100, m at next level, right associativity).

(** [try m except h]: the handler sees every exception; a handler that does
    not catch one re-raises it. *)
Definition try_except {A : Type} (m : outcome A) (h : exn -> outcome A) : outcome A :=
  match m with
  | Return a => Return a
  | Raise e => h e
  end.

(** [ExpiredSignatureError] is a subclass of [JWTError] in python-jose, so
    [except JWTError] catches both. *)
Definition isinstance_JWTError (e : exn) : bool :=
  match e with
  | JWTError | ExpiredSignatureError => true
  | _ => false
  end.

(** ** Small Python built-ins on strings and lists *)

(** [x in l] for a list of strings. *)
Definition str_in (x : string) (l : list string) : bool :=
  existsb (String.eqb x) l.

(** [d.get(k)] on a dict literal kept as an association list. *)
Fixpoint dict_get {K V : Type} (eqb : K -> K -> bool) (d : list (K * V)) (k : K) : option V :=
  match d with
  | [] => None
  | (k', v) :: d' => if eqb k k' then Some v else dict_get eqb d' k
  end.

(** [needle in haystack] for strings. *)
Fixpoint str_contains (needle haystack : string) : bool :=
  String.prefix needle haystack ||
  match haystack with
  | EmptyString => false
  | String _ rest => str_contains needle rest
  end.

Definition is_upper (c : ascii) : bool :=
  let n := N_of_ascii c in ((65 <=? n) && (n <=? 90))%N.

Definition is_lower (c : ascii) : bool :=
  let n := N_of_ascii c in ((97 <=? n) && (n <=? 122))%N.

Definition is_cased (c : ascii) : bool := is_upper c || is_lower c.

Definition to_upper (c : ascii) : ascii :=
  if is_lower c then ascii_of_N (N_of_ascii c - 32) else c.

Definition to_lower (c : ascii) : ascii :=
  if is_upper c then ascii_of_N (N_of_ascii c + 32) else c.

(** [s.isascii()] *)
Definition isascii (s : string) : bool :=
  forallb (fun c => (N_of_ascii c <? 128)%N) (list_ascii_of_string s).

(** [str.title()] on a text for which [isascii] holds: a letter that follows
    a cased character is lowered, any other letter is raised; the other
    ASCII characters are uncased and copied.  (The casing of other
    characters is not modelled: their bytes are copied as well.) *)
Fixpoint title_from (previous_is_cased : bool) (s : string) : string :=
  match s with
  | EmptyString => EmptyString
  | String c rest =>
      String (if previous_is_cased then to_lower c else to_upper c)
             (title_from (is_cased c) rest)
  end.

Definition title (s : string) : string := title_from false s.

(** ** models.py *)

Module Models.

Record UserInfo : Type := {
  username : string;
  email : option string;
  first_name : option string;
  last_name : option string;
  roles : list string;
  user_id : string
}.

(** [access_token] is the encoded JWT; its representation is that of [Jose]. *)
Record Token (T : Type) : Type := {
  access_token : T;
  token_type : string;
  expires_in : Z
}.

Arguments access_token {T} _.
Arguments token_type {T} _.
Arguments expires_in {T} _.

Record UserProfileCreate : Type := {
  upc_full_name : string;
  upc_phone : option string;
  upc_address : option string;
  upc_city : option string;
  upc_country : option string;
  upc_timezone : option string
}.

(** Timestamps stay numeric; [isoformat()] rendering is not modelled. *)
Record UserProfileResponse : Type := {
  upr_id : Z;
  upr_keycloak_id : N;
  upr_full_name : string;
  upr_phone : option string;
  upr_address : option string;
  upr_city : option string;
  upr_country : option string;
  upr_timezone : option string;
  upr_created_at : Z
}.

(** Every field is [Optional[...] = None]: a key that is absent from the
    request body and a key sent as [null] both read as [None]. *)
Record UserProfileUpdate : Type := {
  upu_full_name : option string;
  upu_phone : option string;
  upu_address : option string;
  upu_city : option string;
  upu_country : option string;
  upu_timezone : option string
}.

Record PasswordResetResponse : Type := {
  success : bool;
  message : string
}.

Record UserRegister : Type := {
  ur_username : string;
  ur_password : string;
  ur_email : option string;
  ur_first_name : option string;
  ur_last_name : option string;
  ur_role : string
}.

Record PasswordChangeRequest : Type := {
  current_password : string;
  new_password : string
}.

Record PasswordChangeResponse : Type := {
  pc_success : bool;
  pc_message : string
}.

Record UserStatusResponse : Type := {
  has_profile : bool;
  profile_complete : bool;
  next_step : string;
  user_info : option (string * option string * option string * option string);
  profile_data : option UserProfileResponse
}.

End Models.

(** ** role_management.py *)

Module RoleManagement.

Inductive RoleType : Type := REALM | CLIENT.

Definition RoleType_eqb (a b : RoleType) : bool :=
  match a, b with
  | REALM, REALM | CLIENT, CLIENT => true
  | _, _ => false
  end.

Record UserRole : Type := {
  name : string;
  type : RoleType;
  client_id : option string;
  permissions : list string;
  description : option string
}.

Record RolePermissions : Type := {
  rp_roles : list UserRole;
  rp_permissions : gset string;
  rp_access_levels : gmap string bool
}.

(** A dict that may carry a ["roles"] list: the value of ["realm_access"]
    and of each entry of ["resource_access"]. *)
Record Access : Type := { roles_entry : option (list string) }.

(** [.get("roles", [])] *)
Definition get_roles (a : Access) : list string :=
  match roles_entry a with
  | Some l => l
  | None => []
  end.

(** The introspection payload, restricted to the two keys that are read.
    [resource_access] keeps the items of the dict in iteration order. *)
Record TokenInfo : Type := {
  realm_access : option Access;
  resource_access : option (list (string * Access))
}.

Definition role_key_eqb (a b : string * RoleType) : bool :=
  String.eqb (fst a) (fst b) && RoleType_eqb (snd a) (snd b).

Definition ROLE_PERMISSIONS : list ((string * RoleType) * list string) :=
  [ (("user", REALM),
     ["profile:read"; "profile:update"; "preferences:read"; "preferences:update"]);
    (("admin", REALM),
     ["profile:read"; "profile:update"; "preferences:read"; "preferences:update";
      "users:read"; "users:manage"; "system:admin"]);
    (("moderator", REALM),
     ["profile:read"; "profile:update"; "preferences:read"; "preferences:update";
      "content:moderate"; "users:read"]);
    (("dashboard-user", CLIENT),
     ["dashboard:read"; "analytics:view"]);
    (("dashboard-admin", CLIENT),
     ["dashboard:read"; "dashboard:manage"; "analytics:view"; "analytics:export"]);
    (("api-consumer", CLIENT),
     ["api:read"; "api:write"]) ].

(** The [client_id] argument is accepted and never consulted. *)
Definition get_role_permissions (role_name : string) (role_type : RoleType)
    (client_id : option string) : list string :=
  match dict_get role_key_eqb ROLE_PERMISSIONS (role_name, role_type) with
  | Some l => l
  | None => []
  end.

Definition ROLE_DESCRIPTIONS : list ((string * RoleType) * string) :=
  [ (("user", REALM), "Standard user with basic access");
    (("admin", REALM), "System administrator with full access");
    (("moderator", REALM), "Content moderator with limited admin access");
    (("dashboard-user", CLIENT), "Dashboard user with read access");
    (("dashboard-admin", CLIENT), "Dashboard administrator");
    (("api-consumer", CLIENT), "API access for external integrations") ].

Definition get_role_description (role_name : string) (role_type : RoleType) : string :=
  match dict_get role_key_eqb ROLE_DESCRIPTIONS (role_name, role_type) with
  | Some d => d
  | None => title role_name +:+ " role"
  end.

Definition realm_role (role_name : string) : UserRole :=
  {| name := role_name;
     type := REALM;
     client_id := None;
     permissions := get_role_permissions role_name REALM None;
     description := Some (get_role_description role_name REALM) |}.

Definition client_role (cid role_name : string) : UserRole :=
  {| name := role_name;
     type := CLIENT;
     client_id := Some cid;
     permissions := get_role_permissions role_name CLIENT (Some cid);
     description := Some (get_role_description role_name CLIENT) |}.

Definition keep_realm_role (role_name : string) : bool :=
  negb (str_in role_name ["default-roles-master"; "offline_access"; "uma_authorization"]).

Definition keep_client_role (role_name : string) : bool :=
  negb (str_in role_name ["uma_protection"]).

Definition extract_realm_roles (token_info : TokenInfo) : list UserRole :=
  match realm_access token_info with
  | Some ra => map realm_role (List.filter keep_realm_role (get_roles ra))
  | None => []
  end.

Definition extract_client_roles (token_info : TokenInfo) : list UserRole :=
  match resource_access token_info with
  | Some items =>
      flat_map (fun item : string * Access =>
                  map (client_role (fst item))
                      (List.filter keep_client_role (get_roles (snd item))))
               items
  | None => []
  end.

Definition extract_detailed_roles (token_info : TokenInfo) : list UserRole :=
  extract_realm_roles token_info ++ extract_client_roles token_info.

(** [any(p in role.permissions for role in roles)] *)
Definition any_has_permission (p : string) (roles : list UserRole) : bool :=
  existsb (fun role => str_in p (permissions role)) roles.

Definition all_permissions (roles : list UserRole) : gset string :=
  foldr (fun role acc => list_to_set (permissions role) ∪ acc) ∅ roles.

Definition access_levels_of_roles (roles : list UserRole) : gmap string bool :=
  list_to_map
    [ ("can_view_admin", any_has_permission "system:admin" roles);
      ("can_manage_users", any_has_permission "users:manage" roles);
      ("can_moderate", any_has_permission "content:moderate" roles);
      ("can_view_analytics", any_has_permission "analytics:view" roles);
      ("can_export_data", any_has_permission "analytics:export" roles);
      ("can_access_api",
       existsb (fun role => str_in "api:read" (permissions role)
                            || str_in "api:write" (permissions role)) roles);
      ("is_admin",
       existsb (fun role => String.eqb (name role) "admin"
                            && RoleType_eqb (type role) REALM) roles);
      ("is_moderator",
       existsb (fun role => String.eqb (name role) "moderator") roles) ].

Definition calculate_user_permissions (roles : list UserRole) : RolePermissions :=
  {| rp_roles := roles;
     rp_permissions := all_permissions roles;
     rp_access_levels := access_levels_of_roles roles |}.

(** The part of [get_roles_for_frontend] that the aggregation feeds. *)
Definition get_roles_for_frontend (token_info : TokenInfo) : RolePermissions :=
  calculate_user_permissions (extract_detailed_roles token_info).

Definition get_user_permissions_from_roles (role_names : list string) : gset string :=
  foldr (fun role_name acc =>
           match get_role_permissions role_name REALM None with
           | [] => list_to_set (get_role_permissions role_name CLIENT None) ∪ acc
           | ps => list_to_set ps ∪ acc
           end) ∅ role_names.

(** [require_permission(permission)] around a handler.  [current_user] is
    [None] when the keyword argument is missing or is not a [UserInfo]. *)
Definition require_permission {A : Type} (permission : string)
    (func : Models.UserInfo -> outcome A)
    (current_user : option Models.UserInfo) : outcome A :=
  match current_user with
  | None => Raise (HTTPException 401 "Authentication required")
  | Some u =>
      let user_permissions := get_user_permissions_from_roles (Models.roles u) in
      if bool_decide (permission ∈ user_permissions)
      then func u
      else Raise (HTTPException 403 ("Permission required: " +:+ permission))
  end.

(** [require_role(role_name, role_type)] around a handler; [role_type] is
    accepted and the check is on the flat role names. *)
Definition require_role {A : Type} (role_name : string) (role_type : RoleType)
    (func : Models.UserInfo -> outcome A)
    (current_user : option Models.UserInfo) : outcome A :=
  match current_user with
  | None => Raise (HTTPException 401 "Authentication required")
  | Some u =>
      if str_in role_name (Models.roles u)
      then func u
      else Raise (HTTPException 403 ("Role required: " +:+ role_name))
  end.

End RoleManagement.

(** ** python-jose: [jwt.encode] and [jwt.decode] as auth.py calls them

    The library is a dependency, not part of the repository; the model keeps
    what the two call sites rely on.  A compact JWS is kept as the text of
    its signing input and of its signature segment, together with the
    payload that the signing input holds.  What the library computes under
    the algorithm name (the serialisation of header and payload, the keyed
    signature, base64url) is left abstract.  The payload is restricted to
    the keys that the application writes or reads. *)

Module Jose.

(** A JSON object entry: missing key, [null], or a value. *)
Inductive jfield (A : Type) : Type :=
| Absent
| Null
| Val (a : A).

Arguments Absent {A}.
Arguments Null {A}.
Arguments Val {A} a.

(** The session keys that login puts in the claim dict. *)
Record Fields : Type := {
  f_sub : jfield string;
  f_username : jfield string;
  f_email : jfield string;
  f_first_name : jfield string;
  f_last_name : jfield string;
  f_roles : jfield (list string);
  f_user_id : jfield string
}.

(** The dict handed to [jwt.encode]; ["exp"] holds a [datetime], counted
    here in microseconds since the epoch. *)
Record Claims : Type := {
  c_fields : Fields;
  c_exp : option Z
}.

(** The JSON payload of a token; ["exp"] is a NumericDate in whole seconds. *)
Record Payload : Type := {
  p_fields : Fields;
  p_exp : option Z
}.

(** A bearer credential.  [Compact input payload signature] is the text
    [input.signature]: [input] is the signing input (the header and payload
    segments as presented), [payload] the JSON object in its payload
    segment, [signature] the signature segment as presented.  [Malformed]
    is a text that the library does not load: not three segments, a header
    or payload segment that does not decode, or a header that names an
    algorithm outside the allowed list. *)
Inductive Token : Type :=
| Malformed (raw : string)
| Compact (input : string) (payload : Payload) (signature : string).

(** What the library computes under one algorithm name. *)
Record Algorithm : Type := {
  (** the header and payload segments that [jws.sign] writes *)
  signing_input : Payload -> string;
  (** the signature bytes for a key and a signing input *)
  sign : string -> string -> string;
  base64url_encode : string -> string;
  (** [None] for a text that does not decode *)
  base64url_decode : string -> option string;
  base64url_decode_encode :
    forall bytes, base64url_decode (base64url_encode bytes) = Some bytes
}.

(** [calendar.timegm(dt.utctimetuple())]: the microseconds are dropped. *)
Definition timegm (dt : Z) : Z := dt / 1000000.

(** [jwt.encode]: a [datetime] under ["exp"] becomes its [timegm]. *)
Definition encode (claims : Claims) (key : string) (algorithm : Algorithm) : Token :=
  let payload := {| p_fields := c_fields claims;
                    p_exp := option_map timegm (c_exp claims) |} in
  let input := signing_input algorithm payload in
  Compact input payload (base64url_encode algorithm (sign algorithm key input)).

Record Options : Type := {
  verify_signature : bool;
  verify_exp : bool;
  require_exp : bool;
  leeway : Z
}.

(** The defaults of [jwt.decode] when no [options] argument is passed. *)
Definition defaults : Options :=
  {| verify_signature := true;
     verify_exp := true;
     require_exp := false;
     leeway := 0 |}.

(** [key.verify(signing_input, signature)]: the signature segment is
    decoded, and its bytes are compared with the signature of the signing
    input as presented. *)
Definition verify (algorithm : Algorithm) (key input signature : string) : bool :=
  match base64url_decode algorithm signature with
  | Some bytes => String.eqb bytes (sign algorithm key input)
  | None => false
  end.

Definition validate_exp (options : Options) (payload : Payload) (now : Z) : outcome unit :=
  match p_exp payload with
  | None => Return tt
  | Some e =>
      if verify_exp options && (e <? timegm now - leeway options)
      then Raise ExpiredSignatureError
      else Return tt
  end.

(** ["sub"], when present, must be a string ([JWTClaimsError], a [JWTError]). *)
Definition validate_sub (payload : Payload) : outcome unit :=
  match f_sub (p_fields payload) with
  | Null => Raise JWTError
  | _ => Return tt
  end.

(** [jwt.decode]: signature first, then the required keys, then the claims. *)
Definition decode (token : Token) (key : string) (algorithm : Algorithm)
    (options : Options) (now : Z) : outcome Payload :=
  match token with
  | Malformed _ => Raise JWTError
  | Compact input payload signature =>
      if negb (verify_signature options) || verify algorithm key input signature
      then
        if require_exp options && negb (bool_decide (is_Some (p_exp payload)))
        then Raise JWTError
        else
          _ <- validate_exp options payload now ;;
          _ <- validate_sub payload ;;
          Return payload
      else Raise JWTError
  end.

End Jose.

(** ** auth.py *)

Module Auth.

Import Models RoleManagement Jose.

Record Config : Type := {
  JWT_SECRET_KEY : string;
  JWT_ALGORITHM : Algorithm;
  JWT_ACCESS_TOKEN_EXPIRE_MINUTES : Z
}.

(** ** The Keycloak clients, as the responses they give *)

Record Userinfo : Type := {
  preferred_username : jfield string;
  ui_email : option string;
  given_name : option string;
  family_name : option string;
  ui_sub : option string
}.

Record KeycloakOpenID : Type := {
  (** [token(username, password)["access_token"]] *)
  token : string -> string -> outcome string;
  userinfo : string -> outcome Userinfo;
  introspect : string -> outcome TokenInfo
}.

(** A user representation; [kc_id] is [None] when the ["id"] key is missing. *)
Record KcUser : Type := { kc_id : option string }.

Record KeycloakAdmin : Type := {
  (** [get_users({"email": email})] *)
  get_users : string -> outcome (list KcUser);
  (** [send_update_account(user_id, ["UPDATE_PASSWORD"], 3600)] *)
  send_update_account : string -> outcome unit
}.

(** The module-level handles: [None] when initialisation failed. *)
Record Keycloak : Type := {
  keycloak_openid : option KeycloakOpenID;
  keycloak_admin : option KeycloakAdmin
}.

(** [timedelta(minutes=m)] in microseconds. *)
Definition minutes (m : Z) : Z := m * 60000000.

(** [datetime.min] and [datetime.max], in microseconds since the epoch:
    the first instant of year 1 and the last of year 9999. *)
Definition datetime_min : Z := -62135596800000000.

Definition datetime_max : Z := 253402300799999999.

(** [timedelta.min] and [timedelta.max]: 999999999 days either way. *)
Definition timedelta_min : Z := -999999999 * 86400000000.

Definition timedelta_max : Z := 999999999 * 86400000000 + 86399999999.

Definition OverflowError : exn := OtherException "OverflowError".

(** The constructor [timedelta(...)] for a duration of [d] microseconds. *)
Definition timedelta (d : Z) : outcome Z :=
  if (timedelta_min <=? d) && (d <=? timedelta_max)
  then Return d
  else Raise OverflowError.

(** [dt + delta] on a [datetime]. *)
Definition datetime_add (dt delta : Z) : outcome Z :=
  if (datetime_min <=? dt + delta) && (dt + delta <=? datetime_max)
  then Return (dt + delta)
  else Raise OverflowError.

(** [create_access_token(data, expires_delta)] at the instant [utcnow];
    [expires_delta] is in microseconds, and a zero [timedelta] is falsy. *)
Definition create_access_token (cfg : Config) (data : Fields)
    (expires_delta : option Z) (utcnow : Z) : outcome Token :=
  let default_expire :=
    delta <- timedelta (minutes (JWT_ACCESS_TOKEN_EXPIRE_MINUTES cfg)) ;;
    datetime_add utcnow delta in
  expire <- match expires_delta with
            | Some d => if d =? 0 then default_expire else datetime_add utcnow d
            | None => default_expire
            end ;;
  let to_encode := {| c_fields := data; c_exp := Some expire |} in
  Return (encode to_encode (JWT_SECRET_KEY cfg) (JWT_ALGORITHM cfg)).

(** The role names collected by [authenticate_user] before the
    development-user step. *)
Definition flatten_roles (token_info : TokenInfo) : list string :=
  (match realm_access token_info with
   | Some ra =>
       List.filter (fun role => negb (str_in role
                 ["default-roles-master"; "offline_access"; "uma_authorization"]))
              (get_roles ra)
   | None => []
   end)
  ++
  (match resource_access token_info with
   | Some items =>
       flat_map (fun item : string * Access =>
                   List.filter (fun role => negb (str_in role ["uma_protection"]))
                          (get_roles (snd item)))
                items
   | None => []
   end).

(** [if username == "37099475" and "user" not in roles: roles.append("user")] *)
Definition development_user_roles (username : string) (roles : list string) : list string :=
  if String.eqb username "37099475" && negb (str_in "user" roles)
  then roles ++ ["user"]
  else roles.

Definition str_of_exn (e : exn) : string :=
  match e with
  | HTTPException _ detail => detail
  | ValueError msg => msg
  | KeycloakAuthenticationError msg => msg
  | OtherException msg => msg
  | IntegrityError => "IntegrityError"
  | JWTError => "JWTError"
  | ExpiredSignatureError => "Signature has expired."
  | ValidationError => "validation error"
  end.

Definition authenticate_user (kc : Keycloak) (username password : string) : outcome UserInfo :=
  match keycloak_openid kc with
  | None => Raise (HTTPException 500 "Keycloak client not initialized")
  | Some openid =>
      try_except
        (access_token <- token openid username password ;;
         ui <- userinfo openid access_token ;;
         token_info <- introspect openid access_token ;;
         let roles := development_user_roles username (flatten_roles token_info) in
         uname <- match preferred_username ui with
                  | Absent => Return username
                  | Null => Raise ValidationError
                  | Val s => Return s
                  end ;;
         uid <- match ui_sub ui with
                | Some s => Return s
                | None => Raise ValidationError
                end ;;
         Return {| Models.username := uname;
                   email := ui_email ui;
                   first_name := given_name ui;
                   last_name := family_name ui;
                   roles := roles;
                   user_id := uid |})
        (fun e =>
           match e with
           | KeycloakAuthenticationError _ =>
               Raise (HTTPException 401 "Invalid credentials")
           | HTTPException _ _ => Raise e
           | _ =>
               if str_contains "unauthorized_client" (str_of_exn e)
               then Raise (HTTPException 500
                 "Keycloak client configuration error. Please check KEYCLOAK_SETUP.md for configuration instructions.")
               else Raise (HTTPException 500 "Authentication service error")
           end)
  end.

Definition credentials_exception : exn :=
  HTTPException 401 "Could not validate credentials".

(** [payload.get(k)] *)
Definition get {A : Type} (x : jfield A) : option A :=
  match x with
  | Val a => Some a
  | _ => None
  end.

(** [payload.get(k, default)] into a field that must hold a value:
    [null] fails the validation of [UserInfo]. *)
Definition get_required {A : Type} (x : jfield A) (default : A) : outcome A :=
  match x with
  | Absent => Return default
  | Null => Raise ValidationError
  | Val a => Return a
  end.

(** [get_current_user] on the bearer credential, at the instant [utcnow]. *)
Definition get_current_user (cfg : Config) (credentials : Token) (utcnow : Z) : outcome UserInfo :=
  payload <- try_except
               (payload <- decode credentials (JWT_SECRET_KEY cfg) (JWT_ALGORITHM cfg)
                                  defaults utcnow ;;
                match get (f_sub (p_fields payload)) with
                | None => Raise credentials_exception
                | Some _ => Return payload
                end)
               (fun e => if isinstance_JWTError e
                         then Raise credentials_exception
                         else Raise e) ;;
  let f := p_fields payload in
  uname <- get_required (f_username f) "" ;;
  rs <- get_required (f_roles f) [] ;;
  uid <- get_required (f_user_id f) "" ;;
  Return {| Models.username := uname;
            email := get (f_email f);
            first_name := get (f_first_name f);
            last_name := get (f_last_name f);
            roles := rs;
            user_id := uid |}.

Definition send_password_reset_email (kc : Keycloak) (email : string) : outcome bool :=
  match keycloak_admin kc with
  | None => Raise (HTTPException 500 "Keycloak admin client not initialized")
  | Some admin =>
      try_except
        (users <- get_users admin email ;;
         match users with
         | [] => Return true
         | user :: _ =>
             uid <- match kc_id user with
                    | Some i => Return i
                    | None => Raise (OtherException "KeyError: 'id'")
                    end ;;
             _ <- send_update_account admin uid ;;
             Return true
         end)
        (fun _ => Return true)
  end.

Definition require_user_role (current_user : UserInfo) : outcome UserInfo :=
  if str_in "user" (roles current_user)
  then Return current_user
  else Raise (HTTPException 403 "Insufficient permissions. Required role: user").

(** ** User management through the admin client

    The calls made are recorded next to the outcome, oldest first. *)

(** The representation sent to [create_user]. *)
Record UserRepresentation : Type := {
  rep_username : string;
  rep_email : option string;
  rep_firstName : option string;
  rep_lastName : option string;
  rep_enabled : bool;
  rep_emailVerified : bool;
  rep_requiredActions : list string;
  (** one credential: type, value, temporary *)
  rep_credentials : list (string * string * bool)
}.

Record RoleRepresentation : Type := {
  role_id : string;
  role_name : string
}.

(** What [get_user] returns; [acc_username] is [None] without a ["username"] key. *)
Record Account : Type := { acc_username : option string }.

Inductive kc_call : Type :=
| call_get_user (user_id : string)
| call_token (username password : string)
| call_set_user_password (user_id password : string)
| call_create_user (payload : UserRepresentation)
| call_get_realm_role (name : string)
| call_assign_realm_roles (user_id : string) (roles : list RoleRepresentation)
| call_send_verify_email (user_id : string).

(** The further methods of the admin client, as the responses they give. *)
Record KeycloakUsers : Type := {
  get_user : string -> outcome Account;
  (** [set_user_password(user_id, password, temporary=False)] *)
  set_user_password : string -> string -> outcome unit;
  create_user : UserRepresentation -> outcome string;
  get_realm_role : string -> outcome RoleRepresentation;
  assign_realm_roles : string -> list RoleRepresentation -> outcome unit;
  send_verify_email : string -> outcome unit
}.

Definition W (A : Type) : Type := list kc_call * outcome A.

Definition wret {A : Type} (a : A) : W A := ([], Return a).

Definition wraise {A : Type} (e : exn) : W A := ([], Raise e).

(** One call to the identity provider. *)
Definition called {A : Type} (c : kc_call) (response : outcome A) : W A := ([c], response).

Definition wbind {A B : Type} (m : W A) (k : A -> W B) : W B :=
  match m with
  | (calls, Return a) => let (calls', r) := k a in ((calls ++ calls')%list, r)
  | (calls, Raise e) => (calls, Raise e)
  end.

Definition wtry {A : Type} (m : W A) (h : exn -> W A) : W A :=
  match m with
  | (calls, Return a) => (calls, Return a)
  | (calls, Raise e) => let (calls', r) := h e in ((calls ++ calls')%list, r)
  end.

(** [str(e)]; an [HTTPException] prints as its status and its detail. *)
Definition str_of_exception (e : exn) : string :=
  match e with
  | HTTPException status_code detail =>
      NilZero.string_of_int (Z.to_int status_code) +:+ ": " +:+ detail
  | _ => str_of_exn e
  end.

(** The dict given to [create_user_in_keycloak]; [ud_role] is [None] when
    the ["role"] key is missing. *)
Record UserData : Type := {
  ud_username : string;
  ud_password : string;
  ud_email : option string;
  ud_first_name : option string;
  ud_last_name : option string;
  ud_role : option string
}.

Definition new_user_payload (user_data : UserData) : UserRepresentation :=
  {| rep_username := ud_username user_data;
     rep_email := ud_email user_data;
     rep_firstName := ud_first_name user_data;
     rep_lastName := ud_last_name user_data;
     rep_enabled := true;
     rep_emailVerified := false;
     rep_requiredActions := ["VERIFY_EMAIL"];
     rep_credentials := [("password", ud_password user_data, false)] |}.

Definition create_user_in_keycloak (kc : Keycloak) (users : KeycloakUsers)
    (user_data : UserData) : W string :=
  match keycloak_admin kc with
  | None => wraise (HTTPException 500 "Keycloak admin client not initialized")
  | Some _ =>
      wtry
        (wbind (called (call_create_user (new_user_payload user_data))
                       (create_user users (new_user_payload user_data))) (fun user_id =>
         let role_name := match ud_role user_data with
                          | Some r => r
                          | None => "user"
                          end in
         wbind (called (call_get_realm_role role_name)
                       (get_realm_role users role_name)) (fun role =>
         wbind (called (call_assign_realm_roles user_id [role])
                       (assign_realm_roles users user_id [role])) (fun _ =>
         wbind (wtry (called (call_send_verify_email user_id)
                             (send_verify_email users user_id))
                     (fun _ => wret tt)) (fun _ =>
         wret user_id)))))
        (fun e => wraise (HTTPException 500 ("Error creating user: " +:+ str_of_exception e)))
  end.

Definition change_user_password (kc : Keycloak) (users : KeycloakUsers)
    (user_id current_password new_password : string) : W bool :=
  match keycloak_admin kc with
  | None => wraise (HTTPException 500 "Keycloak admin client not initialized")
  | Some _ =>
      wtry
        (wbind (called (call_get_user user_id) (get_user users user_id)) (fun user =>
         match acc_username user with
         | None | Some "" => wraise (HTTPException 404 "User not found")
         | Some username =>
             wbind (wtry
                      (match keycloak_openid kc with
                       | Some openid =>
                           called (call_token username current_password)
                                  (token openid username current_password)
                       | None =>
                           wraise (OtherException
                                     "'NoneType' object has no attribute 'token'")
                       end)
                      (fun e =>
                         match e with
                         | KeycloakAuthenticationError _ =>
                             wraise (HTTPException 400 "Current password is incorrect")
                         | _ => wraise e
                         end)) (fun _ =>
             wbind (called (call_set_user_password user_id new_password)
                           (set_user_password users user_id new_password)) (fun _ =>
             wret true))
         end))
        (fun e =>
           match e with
           | HTTPException _ _ => wraise e
           | _ => wraise (HTTPException 500 "Error changing password")
           end)
  end.

End Auth.

(** ** db_models.py and user_service.py *)

Module UserService.

Import Models.

(** The types of the text columns in db_models.py: [String(n)] and [Text]. *)
Inductive ColumnType : Type :=
| VARCHAR (n : nat)
| TEXT.

Definition full_name_type : ColumnType := VARCHAR 255.
Definition phone_type : ColumnType := VARCHAR 50.
Definition address_type : ColumnType := TEXT.
Definition city_type : ColumnType := VARCHAR 255.
Definition country_type : ColumnType := VARCHAR 255.
Definition timezone_type : ColumnType := VARCHAR 100.

(** A byte that continues a character of a UTF-8 text. *)
Definition is_continuation (c : ascii) : bool :=
  let n := N_of_ascii c in ((128 <=? n) && (n <? 192))%N.

(** The number of characters of a text. *)
Fixpoint char_length (s : string) : nat :=
  match s with
  | EmptyString => O
  | String c rest => if is_continuation c then char_length rest else S (char_length rest)
  end.

(** The first [n] characters of a text, and what follows them. *)
Fixpoint split_chars (n : nat) (s : string) : string * string :=
  match s with
  | EmptyString => (EmptyString, EmptyString)
  | String c rest =>
      if is_continuation c
      then let (kept, excess) := split_chars n rest in (String c kept, excess)
      else match n with
           | O => (EmptyString, s)
           | S m => let (kept, excess) := split_chars m rest in (String c kept, excess)
           end
  end.

Definition only_spaces (s : string) : bool :=
  forallb (Ascii.eqb " ") (list_ascii_of_string s).

(** The driver refuses a parameter that holds a NUL character, before
    anything is sent. *)
Definition has_nul (v : option string) : bool :=
  match v with
  | Some s => existsb (Ascii.eqb zero) (list_ascii_of_string s)
  | None => false
  end.

Definition nul_message : string :=
  "A string literal cannot contain NUL (0x00) characters.".

(** The store refuses a value that is longer than its [character
    varying(n)] column, unless the excess characters are all spaces ... *)
Definition too_long (t : ColumnType) (v : option string) : bool :=
  match t, v with
  | VARCHAR n, Some s => negb (only_spaces (snd (split_chars n s)))
  | _, _ => false
  end.

(** ... in which case it stores the first [n] characters. *)
Definition stored (t : ColumnType) (v : option string) : option string :=
  match t, v with
  | VARCHAR n, Some s => Some (fst (split_chars n s))
  | _, _ => v
  end.

(** A value that the column takes as it is. *)
Definition fits (t : ColumnType) (v : option string) : bool :=
  negb (has_nul v)
  && match t, v with
     | VARCHAR n, Some s => (char_length s <=? n)%nat
     | _, _ => true
     end.

(** A row of the [users] table.  [keycloak_id] is the 128-bit value of the
    UUID; the text columns are nullable. *)
Record User : Type := {
  id : Z;
  keycloak_id : N;
  full_name : option string;
  phone : option string;
  address : option string;
  city : option string;
  country : option string;
  timezone : option string;
  created_at : Z;
  updated_at : Z
}.

(** What the session sends to the store. *)
Inductive statement : Type :=
| SELECT_keycloak_id (k : N)
| INSERT (k : N)
| UPDATE (row_id : Z)
| COMMIT
| ROLLBACK.

(** The table, the sequence behind the [id] column, and the statements
    issued so far (oldest first). *)
Record Db : Type := {
  rows : list User;
  serial : Z;
  log : list statement
}.

Definition issue (db : Db) (stmts : list statement) : Db :=
  {| rows := rows db; serial := serial db; log := log db ++ stmts |}.

(** State and exceptions together: a call runs against the session. *)
Definition M (A : Type) : Type := Db -> Db * outcome A.

Definition ret {A : Type} (a : A) : M A := fun db => (db, Return a).

Definition raise {A : Type} (e : exn) : M A := fun db => (db, Raise e).

Definition mbind {A B : Type} (m : M A) (k : A -> M B) : M B :=
  fun db =>
    match m db with
    | (db', Return a) => k a db'
    | (db', Raise e) => (db', Raise e)
    end.

Definition mtry {A : Type} (m : M A) (h : exn -> M A) : M A :=
  fun db =>
    match m db with
    | (db', Return a) => (db', Return a)
    | (db', Raise e) => h e db'
    end.

Definition has_keycloak_id (k : N) (u : User) : bool := N.eqb (keycloak_id u) k.

Definition option_eqb (a b : option string) : bool :=
  match a, b with
  | Some x, Some y => String.eqb x y
  | None, None => true
  | _, _ => false
  end.

Section WithUUID.

(** How a text is read as a UUID: the value, or the message of the
    error.  [uuid.UUID(text)] raises [ValueError] with that message; in
    [get_user_by_keycloak_id] the text is the operand of a comparison with
    the [keycloak_id] column, and the error is a [DataError]. *)
Variable UUID : string -> string + N.

Definition get_user_by_keycloak_id (keycloak_id : string) : M (option User) :=
  fun db =>
    match UUID keycloak_id with
    | inr k => (issue db [SELECT_keycloak_id k], Return (List.find (has_keycloak_id k) (rows db)))
    | inl msg => (db, Raise (OtherException ("DataError: " +:+ msg)))
    end.

(** [db.add(db_user); db.commit(); db.refresh(db_user)].  The driver
    raises [ValueError] for a NUL character before the INSERT is sent.  The
    store refuses a value that is too long for its column with [DataError],
    which no handler of the adapter catches: the session rolls the failed
    flush back.  The unique constraint on [keycloak_id] then refuses a
    second row with [IntegrityError], and the sequence value is spent. *)
Definition add_commit_refresh (now : Z) (k : N) (profile_data : UserProfileCreate) : M User :=
  fun db =>
    let full_name := Some (upc_full_name profile_data) in
    let phone := upc_phone profile_data in
    let address := upc_address profile_data in
    let city := upc_city profile_data in
    let country := upc_country profile_data in
    let timezone := upc_timezone profile_data in
    if has_nul full_name || has_nul phone || has_nul address
       || has_nul city || has_nul country || has_nul timezone
    then (db, Raise (ValueError nul_message))
    else if too_long full_name_type full_name || too_long phone_type phone
            || too_long address_type address || too_long city_type city
            || too_long country_type country || too_long timezone_type timezone
    then (issue db [INSERT k; ROLLBACK], Raise (OtherException "DataError"))
    else if existsb (has_keycloak_id k) (rows db)
    then ({| rows := rows db; serial := serial db + 1; log := log db ++ [INSERT k] |},
          Raise IntegrityError)
    else
      let db_user := {| id := serial db;
                        keycloak_id := k;
                        full_name := stored full_name_type full_name;
                        phone := stored phone_type phone;
                        address := stored address_type address;
                        city := stored city_type city;
                        country := stored country_type country;
                        timezone := stored timezone_type timezone;
                        created_at := now;
                        updated_at := now |} in
      ({| rows := rows db ++ [db_user]; serial := serial db + 1;
          log := log db ++ [INSERT k; COMMIT] |},
       Return db_user).

Definition rollback : M unit := fun db => (issue db [ROLLBACK], Return tt).

Definition create_user_profile (now : Z) (keycloak_id : string)
    (profile_data : UserProfileCreate) : M User :=
  mtry
    (mbind (fun db => match UUID keycloak_id with
                      | inr k => (db, Return k)
                      | inl msg => (db, Raise (ValueError msg))
                      end)
           (fun k => add_commit_refresh now k profile_data))
    (fun e =>
       match e with
       | IntegrityError =>
           mbind rollback (fun _ => raise (ValueError "User profile already exists"))
       | ValueError msg =>
           mbind rollback (fun _ => raise (ValueError ("Invalid data format: " +:+ msg)))
       | _ => raise e
       end).

(** [if v is not None: user.attr = v] *)
Definition overwrite (old new : option string) : option string :=
  match new with
  | Some v => Some v
  | None => old
  end.

(** The attribute assignments of [update_user_profile] on the loaded object. *)
Definition assign_fields (user : User) (profile_data : UserProfileUpdate) : User :=
  {| id := id user;
     keycloak_id := keycloak_id user;
     full_name := overwrite (full_name user) (upu_full_name profile_data);
     phone := overwrite (phone user) (upu_phone profile_data);
     address := overwrite (address user) (upu_address profile_data);
     city := overwrite (city user) (upu_city profile_data);
     country := overwrite (country user) (upu_country profile_data);
     timezone := overwrite (timezone user) (upu_timezone profile_data);
     created_at := created_at user;
     updated_at := updated_at user |}.

(** The unit of work compares each attribute with the value it was
    loaded with: only a net change puts the row in an UPDATE. *)
Definition is_modified (loaded current : User) : bool :=
  negb (option_eqb (full_name loaded) (full_name current)
        && option_eqb (phone loaded) (phone current)
        && option_eqb (address loaded) (address current)
        && option_eqb (city loaded) (city current)
        && option_eqb (country loaded) (country current)
        && option_eqb (timezone loaded) (timezone current)).

(** One column of the UPDATE: it is set only when the attribute differs
    from the value it was loaded with. *)
Definition set_if_changed (t : ColumnType) (loaded current old : option string) :
    option string :=
  if option_eqb loaded current then old else stored t current.

(** The UPDATE on the stored row; [onupdate=func.now()] fills
    [updated_at] in every UPDATE of the row. *)
Definition apply_update (now : Z) (loaded current old : User) : User :=
  {| id := id old;
     keycloak_id := keycloak_id old;
     full_name := set_if_changed full_name_type
                    (full_name loaded) (full_name current) (full_name old);
     phone := set_if_changed phone_type (phone loaded) (phone current) (phone old);
     address := set_if_changed address_type
                  (address loaded) (address current) (address old);
     city := set_if_changed city_type (city loaded) (city current) (city old);
     country := set_if_changed country_type
                  (country loaded) (country current) (country old);
     timezone := set_if_changed timezone_type
                   (timezone loaded) (timezone current) (timezone old);
     created_at := created_at old;
     updated_at := now |}.

(** A parameter of the UPDATE (a changed attribute) for which [test] holds. *)
Definition changed_and (test : option string -> bool) (loaded current : option string) :
    bool :=
  negb (option_eqb loaded current) && test current.

Definition any_changed (test : ColumnType -> option string -> bool)
    (loaded current : User) : bool :=
  changed_and (test full_name_type) (full_name loaded) (full_name current)
  || changed_and (test phone_type) (phone loaded) (phone current)
  || changed_and (test address_type) (address loaded) (address current)
  || changed_and (test city_type) (city loaded) (city current)
  || changed_and (test country_type) (country loaded) (country current)
  || changed_and (test timezone_type) (timezone loaded) (timezone current).

Definition has_id (i : Z) (u : User) : bool := Z.eqb (id u) i.

(** [db.commit()] with [loaded] possibly changed into [current]: nothing
    is sent for an object without a net change.  The parameters of the
    UPDATE are the changed attributes: as for the INSERT, a NUL character
    is a [ValueError] of the driver and a value that is too long for its
    column a [DataError] of the store. *)
Definition commit_object (now : Z) (loaded current : User) : M unit :=
  fun db =>
    if is_modified loaded current
    then
      if any_changed (fun _ => has_nul) loaded current
      then (db, Raise (ValueError nul_message))
      else if any_changed too_long loaded current
      then (issue db [UPDATE (id current); ROLLBACK], Raise (OtherException "DataError"))
      else if existsb (has_id (id current)) (rows db)
      then ({| rows := map (fun r => if has_id (id current) r
                                     then apply_update now loaded current r
                                     else r) (rows db);
               serial := serial db;
               log := log db ++ [UPDATE (id current); COMMIT] |},
            Return tt)
      else (issue db [UPDATE (id current); ROLLBACK], Raise (OtherException "StaleDataError"))
    else (issue db [COMMIT], Return tt).

(** [db.refresh(user)]: the row is read back by primary key. *)
Definition refresh (user : User) : M User :=
  fun db =>
    match List.find (has_id (id user)) (rows db) with
    | Some r => (db, Return r)
    | None => (db, Raise (OtherException "InvalidRequestError"))
    end.

Definition update_user_profile (now : Z) (user : User)
    (profile_data : UserProfileUpdate) : M User :=
  mtry
    (let user' := assign_fields user profile_data in
     mbind (commit_object now user user') (fun _ => refresh user'))
    (fun e =>
       match e with
       | ValueError msg =>
           mbind rollback (fun _ => raise (ValueError ("Invalid data format: " +:+ msg)))
       | _ => raise e
       end).

End WithUUID.

End UserService.

(** ** main.py: the route handlers *)

Module Main.

Import Models RoleManagement Auth UserService.
Import Jose (jfield, Absent, Null, Val, Fields).

(** pydantic's [ValidationError] derives from [ValueError]. *)
Definition isinstance_ValueError (e : exn) : bool :=
  match e with
  | ValueError _ | ValidationError => true
  | _ => false
  end.

(** A Python value that may be [None], as a JSON entry. *)
Definition json_of_option {A : Type} (o : option A) : jfield A :=
  match o with
  | Some a => Val a
  | None => Null
  end.

Definition token_data (user_info : UserInfo) : Fields :=
  {| Jose.f_sub := Val (username user_info);
     Jose.f_username := Val (username user_info);
     Jose.f_email := json_of_option (email user_info);
     Jose.f_first_name := json_of_option (first_name user_info);
     Jose.f_last_name := json_of_option (last_name user_info);
     Jose.f_roles := Val (roles user_info);
     Jose.f_user_id := Val (user_id user_info) |}.

(** POST /auth/login *)
Definition login (cfg : Config) (kc : Keycloak) (username password : string)
    (utcnow : Z) : outcome (Models.Token Jose.Token) :=
  try_except
    (user_info <- authenticate_user kc username password ;;
     access_token <- create_access_token cfg (token_data user_info) None utcnow ;;
     Return {| access_token := access_token;
               token_type := "bearer";
               expires_in := 1800 |})
    (fun e =>
       match e with
       | HTTPException _ _ => Raise e
       | _ => Raise (HTTPException 500 "Internal server error during login")
       end).

Definition password_reset_response : PasswordResetResponse :=
  {| success := true;
     message := "If the email address exists in our system, a password reset link has been sent." |}.

(** POST /auth/password-reset *)
Definition request_password_reset (kc : Keycloak) (email : string) : outcome PasswordResetResponse :=
  try_except
    (success <- send_password_reset_email kc email ;;
     Return password_reset_response)
    (fun _ => Return password_reset_response).

Record RoleDetail : Type := {
  rd_name : string;
  rd_type : string;
  rd_description : string
}.

Record RolesResponse : Type := {
  r_user_id : string;
  r_username : string;
  r_roles : list string;
  r_permissions : gset string;
  r_access_levels : gmap string bool;
  r_role_details : list RoleDetail
}.

(** [any(role in allowed for role in user_roles)] *)
Definition any_role_in (allowed user_roles : list string) : bool :=
  existsb (fun role => str_in role allowed) user_roles.

Definition access_levels_of_names (user_roles : list string) : gmap string bool :=
  list_to_map
    [ ("can_view_admin", str_in "admin" user_roles);
      ("can_manage_users", str_in "admin" user_roles);
      ("can_moderate", str_in "moderator" user_roles || str_in "admin" user_roles);
      ("can_view_analytics", any_role_in ["admin"; "analyst"; "dashboard-admin"] user_roles);
      ("can_export_data", any_role_in ["admin"; "dashboard-admin"] user_roles);
      ("can_access_api", any_role_in ["admin"; "api-consumer"; "developer"] user_roles);
      ("is_admin", str_in "admin" user_roles);
      ("is_moderator", str_in "moderator" user_roles);
      ("is_standard_user", str_in "user" user_roles) ].

(** GET /auth/me/roles.  Nothing in the [try] body raises, so the
    fallback answer of the handler is never produced. *)
Definition get_user_roles_detailed (current_user : UserInfo) : RolesResponse :=
  let user_roles := roles current_user in
  {| r_user_id := user_id current_user;
     r_username := username current_user;
     r_roles := user_roles;
     r_permissions := get_user_permissions_from_roles user_roles;
     r_access_levels := access_levels_of_names user_roles;
     r_role_details :=
       map (fun role => {| rd_name := role;
                           rd_type := "realm";
                           rd_description := title role +:+ " role" |})
           user_roles |}.

(** [UserProfileResponse(...)] from a row: [full_name] must be a string. *)
Definition profile_response (user : User) : M UserProfileResponse :=
  match full_name user with
  | Some fn =>
      ret {| upr_id := id user;
             upr_keycloak_id := keycloak_id user;
             upr_full_name := fn;
             upr_phone := phone user;
             upr_address := address user;
             upr_city := city user;
             upr_country := country user;
             upr_timezone := timezone user;
             upr_created_at := created_at user |}
  | None => raise ValidationError
  end.

(** The three [except] clauses that close the two profile-writing handlers. *)
Definition profile_except (detail500 : string) (e : exn) : M UserProfileResponse :=
  if isinstance_ValueError e
  then raise (HTTPException 400 (str_of_exn e))
  else match e with
       | HTTPException _ _ => raise e
       | _ => raise (HTTPException 500 detail500)
       end.

Record RegisterResponse : Type := {
  reg_user_id : string;
  reg_message : string
}.

(** [user.dict()] *)
Definition dict_of_register (user : UserRegister) : UserData :=
  {| ud_username := ur_username user;
     ud_password := ur_password user;
     ud_email := ur_email user;
     ud_first_name := ur_first_name user;
     ud_last_name := ur_last_name user;
     ud_role := Some (ur_role user) |}.

(** POST /auth/register *)
Definition register (kc : Keycloak) (users : KeycloakUsers) (user : UserRegister)
    : W RegisterResponse :=
  wtry
    (wbind (create_user_in_keycloak kc users (dict_of_register user)) (fun user_id =>
       wret {| reg_user_id := user_id; reg_message := "User registered successfully" |}))
    (fun e =>
       match e with
       | HTTPException _ _ => wraise e
       | _ => wraise (HTTPException 500 "Internal server error during registration")
       end).

(** POST /auth/change-password, for the identity that [get_current_user] gave. *)
Definition change_password (kc : Keycloak) (users : KeycloakUsers)
    (request : PasswordChangeRequest) (current_user : UserInfo)
    : W PasswordChangeResponse :=
  wtry
    (wbind (change_user_password kc users (user_id current_user)
              (current_password request) (new_password request)) (fun success =>
       if success
       then wret {| pc_success := true; pc_message := "Password changed successfully" |}
       else wret {| pc_success := false; pc_message := "Failed to change password" |}))
    (fun e =>
       match e with
       | HTTPException _ _ => wraise e
       | _ => wraise (HTTPException 500 "Internal server error during password change")
       end).

(** GET /auth/me *)
Definition get_user_profile (current_user : UserInfo) : UserInfo := current_user.

Record AdminUsersResponse : Type := {
  au_message : string;
  au_users : list string;
  au_admin_user : string
}.

(** GET /admin/users *)
Definition get_all_users_admin (current_user : UserInfo) : outcome AdminUsersResponse :=
  if negb (str_in "admin" (roles current_user))
  then Raise (HTTPException 403 "Admin role required")
  else Return {| au_message := "Admin access granted";
                 au_users := ["user1"; "user2"; "user3"];
                 au_admin_user := username current_user |}.

Record ModerationResponse : Type := {
  mo_message : string;
  mo_pending_items : list string;
  mo_moderator : string
}.

(** GET /moderator/content *)
Definition moderate_content (current_user : UserInfo) : outcome ModerationResponse :=
  if negb (existsb (fun role => str_in role (roles current_user)) ["admin"; "moderator"])
  then Raise (HTTPException 403 "Moderator or Admin role required")
  else Return {| mo_message := "Moderation access granted";
                 mo_pending_items := ["item1"; "item2"];
                 mo_moderator := username current_user |}.

Record AnalyticsResponse : Type := {
  an_message : string;
  an_views : Z;
  an_users : Z;
  an_can_view : bool;
  an_can_export : bool;
  an_is_admin : bool;
  an_user : string
}.

(** GET /analytics/dashboard *)
Definition view_analytics (current_user : UserInfo) : outcome AnalyticsResponse :=
  let allowed_roles := ["admin"; "analyst"; "dashboard-user"; "dashboard-admin"] in
  if negb (existsb (fun role => str_in role (roles current_user)) allowed_roles)
  then Raise (HTTPException 403 "Analytics access role required")
  else
    let is_admin := str_in "admin" (roles current_user) in
    let can_export := existsb (fun role => str_in role (roles current_user))
                              ["admin"; "dashboard-admin"] in
    Return {| an_message := "Analytics access granted";
              an_views := 1234;
              an_users := 567;
              an_can_view := true;
              an_can_export := can_export;
              an_is_admin := is_admin;
              an_user := username current_user |}.

Section WithUUID.

Variable UUID : string -> string + N.

(** POST /users/me *)
Definition create_my_profile (now : Z) (current_user : UserInfo)
    (profile_data : UserProfileCreate) : M UserProfileResponse :=
  mtry
    (mbind (get_user_by_keycloak_id UUID (user_id current_user)) (fun existing_user =>
       match existing_user with
       | Some _ =>
           raise (HTTPException 409 "User profile already exists. Use PUT to update.")
       | None =>
           mbind (create_user_profile UUID now (user_id current_user) profile_data)
                 profile_response
       end))
    (profile_except "Error creating user profile").

(** PUT /users/me *)
Definition update_my_profile (now : Z) (current_user : UserInfo)
    (profile_data : UserProfileUpdate) : M UserProfileResponse :=
  mtry
    (mbind (get_user_by_keycloak_id UUID (user_id current_user)) (fun user =>
       match user with
       | None =>
           raise (HTTPException 404 "User profile not found. Create profile first.")
       | Some user =>
           mbind (update_user_profile now user profile_data) profile_response
       end))
    (profile_except "Error updating user profile").

(** What GET /auth/status hands back: the handler returns a status object
    on one path and a bare profile object on the other. *)
Inductive StatusBody : Type :=
| StatusObject (status : UserStatusResponse)
| ProfileObject (profile : UserProfileResponse).

(** GET /auth/status.  The statements after the first [return] of the
    profile branch are never reached. *)
Definition get_user_status (current_user : UserInfo) : M StatusBody :=
  mtry
    (mbind (get_user_by_keycloak_id UUID (user_id current_user)) (fun user =>
       match user with
       | None =>
           ret (StatusObject
                  {| has_profile := false;
                     profile_complete := false;
                     next_step := "complete_profile";
                     user_info := Some (username current_user, email current_user,
                                        first_name current_user, last_name current_user);
                     profile_data := None |})
       | Some user => mbind (profile_response user) (fun r => ret (ProfileObject r))
       end))
    (fun _ => raise (HTTPException 500 "Error retrieving user status")).

(** GET /users/me *)
Definition get_my_profile (current_user : UserInfo) : M UserProfileResponse :=
  mtry
    (mbind (get_user_by_keycloak_id UUID (user_id current_user)) (fun user =>
       match user with
       | None =>
           raise (HTTPException 404 "User profile not found. Please complete your profile.")
       | Some user => profile_response user
       end))
    (fun e =>
       match e with
       | HTTPException _ _ => raise e
       | _ => raise (HTTPException 500 "Error retrieving user profile")
       end).

End WithUUID.

End Main.

(** ** The specification's wording, where it differs from the code *)

Module Specified.

Import RoleManagement UserService.

(** The reserved names as the specification lists them: every name that
    starts with ["default-roles-"], and three fixed names, in either scope. *)
Definition provider_reserved (role_name : string) : bool :=
  String.prefix "default-roles-" role_name
  || str_in role_name ["offline_access"; "uma_authorization"; "uma_protection"].

Definition only_provider_reserved (token_info : TokenInfo) : bool :=
  match realm_access token_info with
  | Some ra => forallb provider_reserved (get_roles ra)
  | None => true
  end
  &&
  match resource_access token_info with
  | Some items => forallb (fun item : string * Access =>
                             forallb provider_reserved (get_roles (snd item))) items
  | None => true
  end.

(** The names each scope of the extractor skips. *)
Definition only_skipped_names (token_info : TokenInfo) : bool :=
  match realm_access token_info with
  | Some ra => forallb (fun r => str_in r
                 ["default-roles-master"; "offline_access"; "uma_authorization"])
                 (get_roles ra)
  | None => true
  end
  &&
  match resource_access token_info with
  | Some items => forallb (fun item : string * Access =>
                             forallb (fun r => str_in r ["uma_protection"])
                                     (get_roles (snd item))) items
  | None => true
  end.

(** [lookup(role)]: the permissions and the description of one assertion. *)
Definition lookup (role_name : string) (role_type : RoleType)
    (client_id : option string) : list string * string :=
  (get_role_permissions role_name role_type client_id,
   get_role_description role_name role_type).

(** A role with no entry in the static permission table. *)
Definition no_table_entry (role_name : string) (role_type : RoleType) : Prop :=
  dict_get role_key_eqb ROLE_PERMISSIONS (role_name, role_type) = None.

Definition is_INSERT (s : statement) : bool :=
  match s with
  | INSERT _ => true
  | _ => false
  end.

(** The uniqueness constraint is consulted between two states of the
    session when an INSERT is among the statements issued in between. *)
Definition constraint_consulted (before after : Db) : bool :=
  existsb is_INSERT (List.skipn (length (log before)) (log after)).

(** One field of a partial update: a value in the patch is stored, an
    absent or null entry keeps what was there. *)
Definition field_patched (old patch new : option string) : Prop :=
  match patch with
  | Some v => new = Some v
  | None => new = old
  end.

(** The patch brings a value that differs from the stored one. *)
Definition brings_change (old patch : option string) : bool :=
  match patch with
  | Some v => negb (option_eqb old (Some v))
  | None => false
  end.

Definition any_change (user : User) (patch : Models.UserProfileUpdate) : bool :=
  brings_change (full_name user) (Models.upu_full_name patch)
  || brings_change (phone user) (Models.upu_phone patch)
  || brings_change (address user) (Models.upu_address patch)
  || brings_change (city user) (Models.upu_city patch)
  || brings_change (country user) (Models.upu_country patch)
  || brings_change (timezone user) (Models.upu_timezone patch).

(** At most one row per identity. *)
Definition one_profile_per_identity (db : Db) : Prop :=
  NoDup (map keycloak_id (rows db)).

(** [payload.get(k, default)] once validation has passed. *)
Definition value_or {A : Type} (x : Jose.jfield A) (default : A) : A :=
  match x with
  | Jose.Val a => a
  | _ => default
  end.

(** The identity that a claim dict carries. *)
Definition identity_of (data : Jose.Fields) : Models.UserInfo :=
  {| Models.username := value_or (Jose.f_username data) "";
     Models.email := Auth.get (Jose.f_email data);
     Models.first_name := Auth.get (Jose.f_first_name data);
     Models.last_name := Auth.get (Jose.f_last_name data);
     Models.roles := value_or (Jose.f_roles data) [];
     Models.user_id := value_or (Jose.f_user_id data) "" |}.







(** The claim set of the specification, without the expiry that issuing
    adds: a subject, the identity fields (three of them optional) and the
    flattened role names. *)
Record SessionClaims : Type := {
  subject : string;
  sc_username : string;
  sc_email : option string;
  sc_first_name : option string;
  sc_last_name : option string;
  sc_roles : list string;
  sc_user_id : string
}.

(** The claim dict of a claim set, with the keys that login writes. *)
Definition claim_dict (claims : SessionClaims) : Jose.Fields :=
  {| Jose.f_sub := Jose.Val (subject claims);
     Jose.f_username := Jose.Val (sc_username claims);
     Jose.f_email := Main.json_of_option (sc_email claims);
     Jose.f_first_name := Main.json_of_option (sc_first_name claims);
     Jose.f_last_name := Main.json_of_option (sc_last_name claims);
     Jose.f_roles := Jose.Val (sc_roles claims);
     Jose.f_user_id := Jose.Val (sc_user_id claims) |}.

(** The identity fields of a claim set. *)
Definition identity (claims : SessionClaims) : Models.UserInfo :=
  {| Models.username := sc_username claims;
     Models.email := sc_email claims;
     Models.first_name := sc_first_name claims;
     Models.last_name := sc_last_name claims;
     Models.roles := sc_roles claims;
     Models.user_id := sc_user_id claims |}.

(** The values of a new profile, and of a patch, are taken by their
    columns as they are. *)
Definition fits_columns (profile_data : Models.UserProfileCreate) : bool :=
  fits full_name_type (Some (Models.upc_full_name profile_data))
  && fits phone_type (Models.upc_phone profile_data)
  && fits address_type (Models.upc_address profile_data)
  && fits city_type (Models.upc_city profile_data)
  && fits country_type (Models.upc_country profile_data)
  && fits timezone_type (Models.upc_timezone profile_data).

Definition patch_fits_columns (patch : Models.UserProfileUpdate) : bool :=
  fits full_name_type (Models.upu_full_name patch)
  && fits phone_type (Models.upu_phone patch)
  && fits address_type (Models.upu_address patch)
  && fits city_type (Models.upu_city patch)
  && fits country_type (Models.upu_country patch)
  && fits timezone_type (Models.upu_timezone patch).

(** The permissions that a bare role name stands for in the session path:
    those of its realm entry when it has one, else those of its client entry. *)
Definition name_permissions (role_name : string) : list string :=
  match get_role_permissions role_name REALM None with
  | [] => get_role_permissions role_name CLIENT None
  | ps => ps
  end.

(** Primary keys are distinct and were drawn from the sequence. *)
Definition keys_in_order (db : Db) : Prop :=
  NoDup (map id (rows db)) /\ Forall (fun r => id r < serial db) (rows db).

(** The call went through. *)
Definition admitted {A : Type} (o : outcome A) : bool :=
  match o with
  | Return _ => true
  | Raise _ => false
  end.

End Specified.

(** ** base64url, for the sample configuration

    The encoding without padding that python-jose writes, and the decoding
    of a text over the alphabet: the bits of the last character that do not
    fill a byte are dropped.  A text with a character outside the alphabet
    is given no decoding here. *)

Module Base64url.

Definition code (c : ascii) : Z := Z.of_N (N_of_ascii c).

Definition chr (n : Z) : ascii := ascii_of_N (Z.to_N n).

(** The character of a six-bit value. *)
Definition digit (n : Z) : ascii :=
  if n <? 26 then chr (n + 65)
  else if n <? 52 then chr (n + 71)
  else if n <? 62 then chr (n - 4)
  else if n =? 62 then "-"%char
  else "_"%char.

(** The six-bit value of a character of the alphabet. *)
Definition value (c : ascii) : option Z :=
  let n := code c in
  if (65 <=? n) && (n <=? 90) then Some (n - 65)
  else if (97 <=? n) && (n <=? 122) then Some (n - 71)
  else if (48 <=? n) && (n <=? 57) then Some (n + 4)
  else if n =? 45 then Some 62
  else if n =? 95 then Some 63
  else None.

Fixpoint encode (bytes : string) : string :=
  match bytes with
  | String a (String b (String c rest)) =>
      let n := code a * 65536 + code b * 256 + code c in
      String (digit (n / 262144))
        (String (digit (n / 4096 mod 64))
           (String (digit (n / 64 mod 64))
              (String (digit (n mod 64)) (encode rest))))
  | String a (String b EmptyString) =>
      let n := code a * 1024 + code b * 4 in
      String (digit (n / 4096))
        (String (digit (n / 64 mod 64))
           (String (digit (n mod 64)) EmptyString))
  | String a EmptyString =>
      let n := code a * 16 in
      String (digit (n / 64)) (String (digit (n mod 64)) EmptyString)
  | EmptyString => EmptyString
  end.

Fixpoint decode (text : string) : option string :=
  match text with
  | String a (String b (String c (String d rest))) =>
      match value a, value b, value c, value d, decode rest with
      | Some va, Some vb, Some vc, Some vd, Some bytes =>
          let n := va * 262144 + vb * 4096 + vc * 64 + vd in
          Some (String (chr (n / 65536))
                  (String (chr (n / 256 mod 256))
                     (String (chr (n mod 256)) bytes)))
      | _, _, _, _, _ => None
      end
  | String a (String b (String c EmptyString)) =>
      match value a, value b, value c with
      | Some va, Some vb, Some vc =>
          let n := va * 4096 + vb * 64 + vc in
          Some (String (chr (n / 1024)) (String (chr (n / 4 mod 256)) EmptyString))
      | _, _, _ => None
      end
  | String a (String b EmptyString) =>
      match value a, value b with
      | Some va, Some vb => Some (String (chr ((va * 64 + vb) / 16)) EmptyString)
      | _, _ => None
      end
  | String a EmptyString => None
  | EmptyString => Some EmptyString
  end.

Lemma code_range (c : ascii) : 0 <= code c < 256.
Proof.
  unfold code. pose proof (N_ascii_bounded c). lia.
Qed.

Lemma chr_code (c : ascii) : chr (code c) = c.
Proof. unfold chr, code. rewrite N2Z.id. apply ascii_N_embedding. Qed.

Lemma value_digit (n : Z) : 0 <= n < 64 -> value (digit n) = Some n.
Proof.
  intros H.
  assert (Hn : n = Z.of_nat (Z.to_nat n)) by lia.
  assert (Hlt : (Z.to_nat n < 64)%nat) by lia.
  rewrite Hn. generalize dependent (Z.to_nat n). clear. intros k _ Hlt.
  do 64 (destruct k as [|k]; [reflexivity|]). lia.
Qed.

Ltac six_bits :=
  rewrite !value_digit by (Z.div_mod_to_equations; lia).

Ltac byte_back x :=
  match goal with
  | |- context [chr ?e] =>
      lazymatch e with
      | code _ => fail
      | _ => replace e with (code x) by (Z.div_mod_to_equations; lia)
      end
  end.

Lemma decode_encode_within (len : nat) (bytes : string) :
  (String.length bytes <= len)%nat -> decode (encode bytes) = Some bytes.
Proof.
  revert bytes. induction len as [len IH] using lt_wf_ind. intros bytes Hlen.
  destruct bytes as [|a [|b [|c rest]]]; [reflexivity| | |].
  - pose proof (code_range a). cbn [encode decode]. six_bits.
    byte_back a. now rewrite chr_code.
  - pose proof (code_range a). pose proof (code_range b). cbn [encode decode].
    six_bits. cbv zeta. byte_back a. byte_back b. now rewrite !chr_code.
  - pose proof (code_range a). pose proof (code_range b). pose proof (code_range c).
    cbn [encode decode]. six_bits.
    rewrite (IH (String.length rest)) by (simpl in Hlen; lia).
    cbv zeta. byte_back a. byte_back b. byte_back c. now rewrite !chr_code.
Qed.

Lemma decode_encode (bytes : string) : decode (encode bytes) = Some bytes.
Proof. now apply decode_encode_within with (len := String.length bytes). Qed.

End Base64url.

(** ** Sample configuration and data *)

Module Sample.

Import Models RoleManagement Auth UserService.

Definition listing_entry {A : Type} (show : A -> string) (key : string)
    (x : Jose.jfield A) : string :=
  match x with
  | Jose.Absent => ""
  | Jose.Null => key +:+ "=null;"
  | Jose.Val a => key +:+ "=" +:+ show a +:+ ";"
  end.

(** A plain listing of a payload, in place of its JSON text. *)
Definition listing (payload : Jose.Payload) : string :=
  let f := Jose.p_fields payload in
  listing_entry (fun s => s) "sub" (Jose.f_sub f)
  +:+ listing_entry (fun s => s) "username" (Jose.f_username f)
  +:+ listing_entry (fun s => s) "email" (Jose.f_email f)
  +:+ listing_entry (fun s => s) "first_name" (Jose.f_first_name f)
  +:+ listing_entry (fun s => s) "last_name" (Jose.f_last_name f)
  +:+ listing_entry (String.concat ",") "roles" (Jose.f_roles f)
  +:+ listing_entry (fun s => s) "user_id" (Jose.f_user_id f)
  +:+ match Jose.p_exp payload with
      | Some e => "exp=" +:+ NilZero.string_of_int (Z.to_int e) +:+ ";"
      | None => ""
      end.

Fixpoint add_at (i : nat) (v : N) (sums : list N) : list N :=
  match sums, i with
  | [], _ => []
  | x :: rest, O => ((x + v) mod 256)%N :: rest
  | x :: rest, S j => x :: add_at j v rest
  end.

Fixpoint checksum (s : string) (i : nat) (sums : list N) : list N :=
  match s with
  | EmptyString => sums
  | String c rest =>
      checksum rest (if (i =? 31)%nat then O else S i) (add_at i (N_of_ascii c) sums)
  end.

(** A keyed stand-in for HMAC-SHA256 with 32 bytes as well: byte [i] is the
    sum modulo 256 of the bytes of [key/message] at the positions [i],
    [i + 32], [i + 64] and so on. *)
Definition stand_in_sign (key message : string) : string :=
  string_of_list_ascii
    (map ascii_of_N (checksum (key +:+ "/" +:+ message) 0 (repeat 0%N 32))).

Definition stand_in_algorithm : Jose.Algorithm :=
  {| Jose.signing_input := fun payload =>
       Base64url.encode "HS256" +:+ "." +:+ Base64url.encode (listing payload);
     Jose.sign := stand_in_sign;
     Jose.base64url_encode := Base64url.encode;
     Jose.base64url_decode := Base64url.decode;
     Jose.base64url_decode_encode := Base64url.decode_encode |}.

Definition cfg : Config :=
  {| JWT_SECRET_KEY := "your-secret-key-change-this-in-production";
     JWT_ALGORITHM := stand_in_algorithm;
     JWT_ACCESS_TOKEN_EXPIRE_MINUTES := 30 |}.

Definition hex_digit (c : ascii) : option N :=
  let n := N_of_ascii c in
  if ((48 <=? n) && (n <=? 57))%N then Some (n - 48)%N
  else if ((97 <=? n) && (n <=? 102))%N then Some (n - 87)%N
  else if ((65 <=? n) && (n <=? 70))%N then Some (n - 55)%N
  else None.

(** Hexadecimal digits with hyphens between them; [None] on anything else. *)
Fixpoint hex_value (s : string) (digits : nat) (acc : N) : option (nat * N) :=
  match s with
  | EmptyString => Some (digits, acc)
  | String c rest =>
      if Ascii.eqb c "-" then hex_value rest digits acc
      else match hex_digit c with
           | Some d => hex_value rest (S digits) (acc * 16 + d)%N
           | None => None
           end
  end.

(** A reader for UUIDs in the usual hyphenated form. *)
Definition UUID (text : string) : string + N :=
  match hex_value text 0 0%N with
  | Some (32%nat, v) => inr v
  | _ => inl "badly formed hexadecimal UUID string"
  end.

Definition realm_only (names : list string) : TokenInfo :=
  {| realm_access := Some {| roles_entry := Some names |};
     resource_access := None |}.

(** [{realm_access: {roles: ["admin", "default-roles-master"]}}] *)
Definition admin_payload : TokenInfo := realm_only ["admin"; "default-roles-master"].

Definition session_of (uname : string) (names : list string) : UserInfo :=
  {| username := uname;
     email := None;
     first_name := None;
     last_name := None;
     roles := names;
     user_id := "123e4567-e89b-12d3-a456-426614174000" |}.

(** An identity provider that accepts every password and grants [names]. *)
Definition granting (names : list string) : Keycloak :=
  {| keycloak_openid :=
       Some {| token := fun _ _ => Return "access";
               userinfo := fun _ =>
                 Return {| preferred_username := Jose.Absent;
                           ui_email := None;
                           given_name := None;
                           family_name := None;
                           ui_sub := Some "123e4567-e89b-12d3-a456-426614174000" |};
               introspect := fun _ => Return (realm_only names) |};
     keycloak_admin := None |}.



Definition stored_profile : User :=
  {| id := 1;
     keycloak_id := 0x123e4567e89b12d3a456426614174000;
     full_name := Some "Bob";
     phone := None;
     address := None;
     city := Some "A";
     country := None;
     timezone := None;
     created_at := 100;
     updated_at := 100 |}.

Definition db1 : Db :=
  {| rows := [stored_profile]; serial := 2; log := [] |}.

Definition new_profile : UserProfileCreate :=
  {| upc_full_name := "Robert";
     upc_phone := None;
     upc_address := None;
     upc_city := None;
     upc_country := None;
     upc_timezone := None |}.

(** A telephone number of 60 characters, for a column of 50. *)
Definition long_phone : string :=
  "+00 (0)1234 567890 / 1234 567890 / 1234 567890 ext. 12345678".

Definition long_phone_profile : UserProfileCreate :=
  {| upc_full_name := "Robert";
     upc_phone := Some long_phone;
     upc_address := None;
     upc_city := None;
     upc_country := None;
     upc_timezone := None |}.

Definition empty_patch : UserProfileUpdate :=
  {| upu_full_name := None;
     upu_phone := None;
     upu_address := None;
     upu_city := None;
     upu_country := None;
     upu_timezone := None |}.

(** [{city: null, country: "B"}] *)
Definition country_patch : UserProfileUpdate :=
  {| upu_full_name := None;
     upu_phone := None;
     upu_address := None;
     upu_city := None;
     upu_country := Some "B";
     upu_timezone := None |}.

Definition long_phone_patch : UserProfileUpdate :=
  {| upu_full_name := None;
     upu_phone := Some long_phone;
     upu_address := None;
     upu_city := None;
     upu_country := None;
     upu_timezone := None |}.

(** [{resource_access: {"account": {roles: ["admin"]}}}] *)
Definition client_admin_payload : TokenInfo :=
  {| realm_access := None;
     resource_access := Some [("account", {| roles_entry := Some ["admin"] |})] |}.

Definition empty_db : Db := {| rows := []; serial := 1; log := [] |}.

(** An identity provider whose user store answers every call, except that
    the verification mail cannot be sent. *)
Definition mail_down : KeycloakUsers :=
  {| get_user := fun _ => Return {| acc_username := Some "bob" |};
     set_user_password := fun _ _ => Return tt;
     create_user := fun _ => Return "new-id";
     get_realm_role := fun name => Return {| role_id := "r1"; role_name := name |};
     assign_realm_roles := fun _ _ => Return tt;
     send_verify_email := fun _ => Raise (OtherException "SMTP not configured") |}.

(** Clients that are initialised; every password but "right" is refused. *)
Definition checking_passwords : Keycloak :=
  {| keycloak_openid :=
       Some {| token := fun _ password =>
                 if String.eqb password "right"
                 then Return "access"
                 else Raise (KeycloakAuthenticationError "invalid_grant");
               userinfo := fun _ => Raise (OtherException "unused");
               introspect := fun _ => Raise (OtherException "unused") |};
     keycloak_admin :=
       Some {| get_users := fun _ => Return [];
               send_update_account := fun _ => Return tt |} |}.

Definition new_registration : UserRegister :=
  {| ur_username := "carol";
     ur_password := "pw";
     ur_email := Some "carol@example.com";
     ur_first_name := None;
     ur_last_name := None;
     ur_role := "user" |}.

End Sample.

(** * Properties *)

(** ** Role extraction and permission lookup *)

Section RoleProperties.

Import RoleManagement Specified.

Lemma str_in_In (x : string) (l : list string) : str_in x l = true <-> In x l.
Proof.
  unfold str_in. rewrite existsb_exists. split.
  - intros [y [Hy Heq]]. apply String.eqb_eq in Heq. now subst.
  - intros H. exists x. split; [assumption | apply String.eqb_refl].
Qed.

Lemma filter_all_dropped {A : Type} (keep skipped : A -> bool) (l : list A) :
  (forall x, skipped x = true -> keep x = false) ->
  forallb skipped l = true -> List.filter keep l = [].
Proof.
  intros Hk. induction l as [|x l IH]; simpl; [reflexivity|].
  intros H. apply andb_true_iff in H as [Hx Hl].
  rewrite (Hk x Hx). now apply IH.
Qed.

Lemma skipped_realm_name (x : string) :
  str_in x ["default-roles-master"; "offline_access"; "uma_authorization"] = true ->
  keep_realm_role x = false.
Proof. unfold keep_realm_role. now intros ->. Qed.

Lemma skipped_client_name (x : string) :
  str_in x ["uma_protection"] = true -> keep_client_role x = false.
Proof. unfold keep_client_role. now intros ->. Qed.

Lemma no_client_roles (items : list (string * Access)) :
  forallb (fun item : string * Access =>
             forallb (fun r => str_in r ["uma_protection"]) (get_roles (snd item)))
          items = true ->
  flat_map (fun item : string * Access =>
              map (client_role (fst item))
                  (List.filter keep_client_role (get_roles (snd item))))
           items = [].
Proof.
  induction items as [|[cid a] items IH]; simpl; [reflexivity|].
  intros H. apply andb_true_iff in H as [Ha Hc].
  rewrite (filter_all_dropped keep_client_role _ _ skipped_client_name Ha).
  simpl. now apply IH.
Qed.

Lemma names_of_realm_roles (l : list string) : map name (map realm_role l) = l.
Proof. induction l as [|x l IH]; simpl; [reflexivity | now rewrite IH]. Qed.

Lemma names_of_client_roles (cid : string) (l : list string) :
  map name (map (client_role cid) l) = l.
Proof. induction l as [|x l IH]; simpl; [reflexivity | now rewrite IH]. Qed.

(** The role names that login flattens into the session are the names of
    the assertions that the extractor builds, in the same order. *)
Lemma flatten_roles_names (token_info : TokenInfo) :
  Auth.flatten_roles token_info = map name (extract_detailed_roles token_info).
Proof.
  unfold Auth.flatten_roles, extract_detailed_roles,
    extract_realm_roles, extract_client_roles.
  rewrite map_app. f_equal.
  - destruct (realm_access token_info); simpl; [|reflexivity].
    now rewrite names_of_realm_roles.
  - destruct (resource_access token_info) as [items|]; simpl; [|reflexivity].
    induction items as [|[cid a] items IH]; simpl; [reflexivity|].
    rewrite map_app, names_of_client_roles. now rewrite <- IH.
Qed.

Lemma is_moderator_of_roles (roles : list UserRole) :
  access_levels_of_roles roles !! "is_moderator"
  = Some (existsb (fun role => String.eqb (name role) "moderator") roles).
Proof. reflexivity. Qed.

Lemma is_moderator_of_names (user_roles : list string) :
  Main.access_levels_of_names user_roles !! "is_moderator"
  = Some (str_in "moderator" user_roles).
Proof. reflexivity. Qed.

(** The one flag on which the two aggregations always agree. *)
Lemma is_moderator_agrees (token_info : TokenInfo) :
  rp_access_levels (get_roles_for_frontend token_info) !! "is_moderator"
  = Main.access_levels_of_names (Auth.flatten_roles token_info) !! "is_moderator".
Proof.
  rewrite flatten_roles_names, is_moderator_of_names.
  unfold get_roles_for_frontend, calculate_user_permissions.
  cbn [rp_access_levels]. rewrite is_moderator_of_roles. f_equal.
  induction (extract_detailed_roles token_info) as [|r l IH]; [reflexivity|].
  cbn [existsb map]. rewrite IH. unfold str_in. cbn [existsb].
  now rewrite (String.eqb_sym "moderator" (name r)).
Qed.

(** C1, at the payload [{realm_access: {roles: ["admin"]}}]: the
    aggregation over role objects and the aggregation over flattened
    names give different values to four of the flags they both define,
    so the two paths do not compute the same access-level map. *)
Theorem C1_paths_disagree_on_realm_admin :
  let token_info := Sample.realm_only ["admin"] in
  let full := rp_access_levels (get_roles_for_frontend token_info) in
  let flat := Main.r_access_levels
                (Main.get_user_roles_detailed
                   (Sample.session_of "alice" (Auth.flatten_roles token_info))) in
  (full !! "can_moderate" = Some false /\ flat !! "can_moderate" = Some true)
  /\ (full !! "can_view_analytics" = Some false /\ flat !! "can_view_analytics" = Some true)
  /\ (full !! "can_export_data" = Some false /\ flat !! "can_export_data" = Some true)
  /\ (full !! "can_access_api" = Some false /\ flat !! "can_access_api" = Some true).
Proof. vm_compute. repeat split; reflexivity. Qed.

(** C2, the scenario [{realm_access: {roles: ["admin",
    "default-roles-master"]}}]: extraction yields the single realm
    assertion "admin", the permissions include "system:admin" and
    is_admin is true, but the aggregation over role objects computes
    can_moderate as false; only the aggregation over flattened names has
    the admin fallback. *)
Theorem C2_admin_scenario_can_moderate_false :
  let roles := extract_detailed_roles Sample.admin_payload in
  let result := calculate_user_permissions roles in
  roles = [realm_role "admin"]
  /\ (name (realm_role "admin") = "admin" /\ type (realm_role "admin") = REALM)
  /\ "system:admin" ∈ rp_permissions result
  /\ rp_access_levels result !! "is_admin" = Some true
  /\ rp_access_levels result !! "can_moderate" = Some false
  /\ Main.access_levels_of_names (Auth.flatten_roles Sample.admin_payload)
       !! "can_moderate" = Some true.
Proof.
  cbv zeta. split; [reflexivity|]. split; [split; reflexivity|].
  split.
  - apply (bool_decide_unpack _). vm_compute. exact I.
  - vm_compute. repeat split; reflexivity.
Qed.

(** The skip lists are per scope: the realm role "uma_protection" and the
    client role "offline_access" are each skipped in the other scope only,
    so both are materialized. *)
Lemma skip_lists_are_per_scope :
  let token_info :=
    {| realm_access := Some {| roles_entry := Some ["uma_protection"] |};
       resource_access :=
         Some [("account", {| roles_entry := Some ["offline_access"] |})] |} in
  only_provider_reserved token_info = true
  /\ extract_detailed_roles token_info
     = [realm_role "uma_protection"; client_role "account" "offline_access"]
  /\ extract_detailed_roles token_info <> [].
Proof.
  cbv zeta. split; [reflexivity|]. split; [reflexivity|]. discriminate.
Qed.

(** What the two literal lists do skip: when every realm role is one of
    "default-roles-master", "offline_access", "uma_authorization" and every
    client role is "uma_protection", extraction (and the flattening at
    login) returns the empty sequence; and no extracted realm assertion
    bears one of the three realm names, no extracted client assertion the
    name "uma_protection". *)
Lemma literal_names_never_materialized (token_info : TokenInfo) :
  (only_skipped_names token_info = true ->
   extract_detailed_roles token_info = [] /\ Auth.flatten_roles token_info = [])
  /\ (forall r, In r (extract_detailed_roles token_info) ->
        match type r with
        | REALM => ~ In (name r) ["default-roles-master"; "offline_access"; "uma_authorization"]
        | CLIENT => name r <> "uma_protection"
        end).
Proof.
  split.
  - intros H.
    assert (E : extract_detailed_roles token_info = []).
    { unfold only_skipped_names in H. apply andb_true_iff in H as [Hr Hc].
      unfold extract_detailed_roles, extract_realm_roles, extract_client_roles.
      destruct (realm_access token_info) as [ra|];
        [rewrite (filter_all_dropped keep_realm_role _ _ skipped_realm_name Hr)|];
        simpl;
        (destruct (resource_access token_info) as [items|];
         [now apply no_client_roles | reflexivity]). }
    split; [exact E|]. now rewrite flatten_roles_names, E.
  - intros r Hin. unfold extract_detailed_roles in Hin.
    apply in_app_or in Hin as [Hin|Hin].
    + unfold extract_realm_roles in Hin.
      destruct (realm_access token_info) as [ra|]; [|contradiction].
      apply in_map_iff in Hin as [x [<- Hx]]. cbn [type name realm_role].
      apply filter_In in Hx as [_ Hk]. unfold keep_realm_role in Hk.
      apply negb_true_iff in Hk. intros Hc. apply str_in_In in Hc. congruence.
    + unfold extract_client_roles in Hin.
      destruct (resource_access token_info) as [items|]; [|contradiction].
      apply in_flat_map in Hin as [[cid a] [_ Hin]].
      apply in_map_iff in Hin as [x [<- Hx]]. cbn [type name client_role].
      apply filter_In in Hx as [_ Hk]. unfold keep_client_role in Hk.
      apply negb_true_iff in Hk. intros ->. discriminate.
Qed.

(** C3, at the payload [{realm_access: {roles: ["default-roles-astro"]}}],
    the default role of the realm that auth.py names by default: the
    payload holds a provider-reserved name only, yet extraction returns a
    realm assertion for it and login flattens it into the role names of the
    session.  Both sites skip "default Keycloak roles" by comparing with
    the literal "default-roles-master", the default role of one realm. *)
Theorem C3_default_role_of_realm_materialized :
  let token_info := Sample.realm_only ["default-roles-astro"] in
  provider_reserved "default-roles-astro" = true
  /\ only_provider_reserved token_info = true
  /\ extract_detailed_roles token_info = [realm_role "default-roles-astro"]
  /\ Auth.flatten_roles token_info = ["default-roles-astro"]
  /\ extract_detailed_roles (Sample.realm_only ["default-roles-master"]) = [].
Proof. cbv zeta. repeat split; reflexivity. Qed.

(** C4 as stated fails: the generated description is not "{role} role"
    with the role name as given; the name is title-cased first. *)
Lemma C4_description_not_verbatim :
  no_table_entry "analyst" REALM
  /\ lookup "analyst" REALM None = ([], "Analyst role")
  /\ snd (lookup "analyst" REALM None) <> "analyst" +:+ " role".
Proof.
  split; [reflexivity|]. split; [reflexivity|]. discriminate.
Qed.

(** C4, amended: for every role (name, scope, optional client) with no
    entry in the static permission table, lookup returns the empty
    permission list together with a generated description that ends in
    " role"; for a name made of ASCII characters what precedes " role" is
    the title-cased name; lookup is a total function, so there is no error
    case. *)
Theorem C4_lookup_miss (role_name : string) (role_type : RoleType)
    (client_id : option string) :
  no_table_entry role_name role_type ->
  exists titled,
    lookup role_name role_type client_id = ([], titled +:+ " role")
    /\ (isascii role_name = true -> titled = title role_name).
Proof.
  unfold no_table_entry, lookup, get_role_permissions, get_role_description.
  intros H. rewrite H. exists (title role_name). split; [|reflexivity]. f_equal.
  revert H. unfold ROLE_PERMISSIONS, ROLE_DESCRIPTIONS. simpl.
  repeat match goal with
         | |- context [role_key_eqb ?a ?b] => destruct (role_key_eqb a b)
         end; intros H; try discriminate H; reflexivity.
Qed.

(** "dashboard-admin" is mapped as a client role only. *)
Lemma C4_lookup_miss_witness :
  no_table_entry "dashboard-admin" REALM
  /\ isascii "dashboard-admin" = true
  /\ lookup "dashboard-admin" REALM (Some "dashboard-app")
     = ([], "Dashboard-Admin role").
Proof.
  split; [reflexivity|]. split; [reflexivity|].
  destruct (C4_lookup_miss "dashboard-admin" REALM (Some "dashboard-app") eq_refl)
    as [titled [Hlookup Htitled]].
  rewrite Hlookup, (Htitled eq_refl). reflexivity.
Defined.

End RoleProperties.

(** ** Session tokens *)

Section TokenProperties.

Import Jose Auth Specified.

Variable cfg : Config.

Lemma timegm_monotone (a b : Z) : a <= b -> timegm a <= timegm b.
Proof. intros H. unfold timegm. apply Z.div_le_mono; lia. Qed.






(** The signature segment that [jwt.encode] writes verifies. *)
Lemma encoded_signature_verifies (key : string) (algorithm : Algorithm) (input : string) :
  verify algorithm key input (base64url_encode algorithm (sign algorithm key input))
  = true.
Proof.
  unfold verify. rewrite base64url_decode_encode. apply String.eqb_refl.
Qed.

Lemma datetime_add_returns (dt delta expire : Z) :
  datetime_add dt delta = Return expire ->
  expire = dt + delta /\ datetime_min <= expire <= datetime_max.
Proof.
  unfold datetime_add.
  destruct (datetime_min <=? dt + delta) eqn:E1;
    destruct (dt + delta <=? datetime_max) eqn:E2; simpl; try discriminate.
  intros [= <-]. apply Z.leb_le in E1, E2. lia.
Qed.

Lemma timedelta_returns (d delta : Z) : timedelta d = Return delta -> delta = d.
Proof.
  unfold timedelta. destruct (_ && _); [|discriminate]. now intros [= <-].
Qed.

(** When [create_access_token] returns, it returns what [jwt.encode]
    makes of the claim dict and an expiry that is a [datetime]. *)
Lemma create_access_token_returns (data : Fields) (expires_delta : option Z)
    (utcnow : Z) (token : Token) :
  create_access_token cfg data expires_delta utcnow = Return token ->
  let expire := utcnow + match expires_delta with
                         | Some d => if d =? 0
                                     then minutes (JWT_ACCESS_TOKEN_EXPIRE_MINUTES cfg)
                                     else d
                         | None => minutes (JWT_ACCESS_TOKEN_EXPIRE_MINUTES cfg)
                         end in
  token = encode {| c_fields := data; c_exp := Some expire |}
                 (JWT_SECRET_KEY cfg) (JWT_ALGORITHM cfg)
  /\ datetime_min <= expire <= datetime_max.
Proof.
  unfold create_access_token. intros H.
  match type of H with
  | bind ?m _ = _ => destruct m as [expire|e] eqn:He; [|discriminate H]
  end.
  simpl in H. injection H as <-.
  assert (Hd : forall e',
             (delta <- timedelta (minutes (JWT_ACCESS_TOKEN_EXPIRE_MINUTES cfg)) ;;
              datetime_add utcnow delta) = Return e' ->
             e' = utcnow + minutes (JWT_ACCESS_TOKEN_EXPIRE_MINUTES cfg)
             /\ datetime_min <= e' <= datetime_max).
  { intros e' H'.
    destruct (timedelta (minutes (JWT_ACCESS_TOKEN_EXPIRE_MINUTES cfg)))
      as [delta|] eqn:Ht; [|discriminate H'].
    apply timedelta_returns in Ht. subst delta. now apply datetime_add_returns. }
  destruct expires_delta as [d|]; [destruct (d =? 0)|]; cbv zeta.
  - apply Hd in He as [-> Hr]. now split.
  - apply datetime_add_returns in He as [-> Hr]. now split.
  - apply Hd in He as [-> Hr]. now split.
Qed.

(** A ttl other than zero whose expiry is a [datetime] gives a token. *)
Lemma create_access_token_with_ttl (data : Fields) (ttl utcnow : Z) :
  ttl <> 0 ->
  datetime_min <= utcnow + ttl <= datetime_max ->
  create_access_token cfg data (Some ttl) utcnow
  = Return (encode {| c_fields := data; c_exp := Some (utcnow + ttl) |}
                   (JWT_SECRET_KEY cfg) (JWT_ALGORITHM cfg)).
Proof.
  intros Hnz Hr. unfold create_access_token, datetime_add.
  apply Z.eqb_neq in Hnz. rewrite Hnz.
  replace (datetime_min <=? utcnow + ttl) with true by (symmetry; apply Z.leb_le; lia).
  replace (utcnow + ttl <=? datetime_max) with true by (symmetry; apply Z.leb_le; lia).
  reflexivity.
Qed.

(** Verifying what [jwt.encode] made of a claim dict with an expiry. *)
Lemma verify_encoded (data : Fields) (expire : Z) (s : string) (t1 : Z) :
  f_sub data = Val s ->
  f_username data <> Null -> f_roles data <> Null -> f_user_id data <> Null ->
  get_current_user cfg
    (encode {| c_fields := data; c_exp := Some expire |}
            (JWT_SECRET_KEY cfg) (JWT_ALGORITHM cfg)) t1
  = if timegm t1 <=? timegm expire
    then Return (identity_of data)
    else Raise credentials_exception.
Proof.
  intros Hsub Hu Hr Hi.
  destruct data as [sub uname mail fn ln rs uid]. simpl in *. subst sub.
  unfold get_current_user, encode, decode, identity_of.
  cbn [defaults verify_signature require_exp negb orb andb].
  rewrite encoded_signature_verifies.
  unfold validate_exp, validate_sub.
  cbn [p_exp p_fields c_exp c_fields option_map verify_exp leeway defaults andb
       f_sub f_username f_email f_first_name f_last_name f_roles f_user_id].
  rewrite Z.sub_0_r, Z.ltb_antisym.
  destruct (timegm t1 <=? timegm expire); cbn [negb bind try_except get].
  - destruct uname; try contradiction;
      destruct rs; try contradiction;
      destruct uid; try contradiction; reflexivity.
  - reflexivity.
Qed.

Lemma identity_of_claim_dict (claims : SessionClaims) :
  identity_of (claim_dict claims) = identity claims.
Proof.
  destruct claims as [sub uname [mail|] [fn|] [ln|] rs uid]; reflexivity.
Qed.



(** C6 as stated fails, twice.  For a ttl that carries the expiry past
    the last [datetime] (the end of year 9999), issuing raises
    OverflowError, and there is no token to verify.  And what verification
    returns has no subject: two claim sets that differ in their subject
    only are verified to the same identity. *)
Lemma C6_expiry_out_of_range_or_subject_dropped :
  let ttl := 300000000000000000 in
  let t0 := 1700000000000000 in
  let claims (sub : string) :=
    {| subject := sub;
       sc_username := "bob";
       sc_email := None;
       sc_first_name := None;
       sc_last_name := None;
       sc_roles := ["user"];
       sc_user_id := "123e4567-e89b-12d3-a456-426614174000" |} in
  let issued (sub : string) :=
    encode {| c_fields := claim_dict (claims sub); c_exp := Some (t0 + 60000000) |}
           (JWT_SECRET_KEY Sample.cfg) (JWT_ALGORITHM Sample.cfg) in
  ((0 < ttl <= timedelta_max)
   /\ (datetime_min <= t0 <= datetime_max)
   /\ create_access_token Sample.cfg (claim_dict (claims "bob")) (Some ttl) t0
      = Raise OverflowError)
  /\ (claim_dict (claims "7f3a") <> claim_dict (claims "bob")
      /\ create_access_token Sample.cfg (claim_dict (claims "7f3a")) (Some 60000000) t0
         = Return (issued "7f3a")
      /\ create_access_token Sample.cfg (claim_dict (claims "bob")) (Some 60000000) t0
         = Return (issued "bob")
      /\ get_current_user Sample.cfg (issued "7f3a") t0
         = Return (Sample.session_of "bob" ["user"])
      /\ get_current_user Sample.cfg (issued "bob") t0
         = Return (Sample.session_of "bob" ["user"])).
Proof.
  cbv zeta. split.
  - split; [vm_compute; split; congruence|].
    split; [vm_compute; split; congruence | reflexivity].
  - split; [discriminate|]. repeat split; reflexivity.
Qed.

(** C6, amended: for every claim set and every positive ttl for which
    issue time plus ttl is a [datetime], issuing returns a token, and
    verifying it at any instant before the ttl has elapsed succeeds and
    returns the claims of the claim set other than its subject (username,
    email, first_name, last_name, roles, user_id); for the claim sets of
    login, whose subject is the username, they are the whole claim set. *)
Theorem C6_issue_then_verify (claims : SessionClaims) (ttl t0 t1 : Z) :
  0 < ttl ->
  datetime_min <= t0 + ttl <= datetime_max ->
  t1 < t0 + ttl ->
  exists token,
    create_access_token cfg (claim_dict claims) (Some ttl) t0 = Return token
    /\ get_current_user cfg token t1 = Return (identity claims)
    /\ (subject claims = sc_username claims ->
        Main.token_data (identity claims) = claim_dict claims).
Proof.
  intros Hpos Hrange Hlt. eexists.
  split; [apply create_access_token_with_ttl; [lia | exact Hrange]|].
  split.
  - rewrite (verify_encoded _ _ (subject claims))
      by (reflexivity || discriminate).
    replace (timegm t1 <=? timegm (t0 + ttl)) with true
      by (symmetry; apply Z.leb_le, timegm_monotone; lia).
    now rewrite identity_of_claim_dict.
  - intros Hsub. unfold Main.token_data, claim_dict, identity.
    cbn [Models.username Models.email Models.first_name Models.last_name
         Models.roles Models.user_id]. now rewrite Hsub.
Qed.

End TokenProperties.



(** A claim set whose subject is not its username, verified one
    microsecond before expiry. *)
Lemma C6_issue_then_verify_witness :
  let claims := {| Specified.subject := "7f3a";
                   Specified.sc_username := "bob";
                   Specified.sc_email := Some "bob@example.com";
                   Specified.sc_first_name := None;
                   Specified.sc_last_name := None;
                   Specified.sc_roles := ["user"];
                   Specified.sc_user_id := "123e4567-e89b-12d3-a456-426614174000" |} in
  0 < 60000000
  /\ Auth.datetime_min <= 0 + 60000000 <= Auth.datetime_max
  /\ 59999999 < 0 + 60000000
  /\ exists token,
       Auth.create_access_token Sample.cfg (Specified.claim_dict claims) (Some 60000000) 0
       = Return token
       /\ Auth.get_current_user Sample.cfg token 59999999
          = Return (Specified.identity claims).
Proof.
  cbv zeta.
  assert (Hrange : Auth.datetime_min <= 0 + 60000000 <= Auth.datetime_max)
    by (vm_compute; split; congruence).
  split; [lia|]. split; [exact Hrange|]. split; [lia|].
  destruct (C6_issue_then_verify Sample.cfg
              {| Specified.subject := "7f3a";
                 Specified.sc_username := "bob";
                 Specified.sc_email := Some "bob@example.com";
                 Specified.sc_first_name := None;
                 Specified.sc_last_name := None;
                 Specified.sc_roles := ["user"];
                 Specified.sc_user_id := "123e4567-e89b-12d3-a456-426614174000" |}
              60000000 0 59999999 ltac:(lia) Hrange ltac:(lia))
    as [token [Hissued [Hverified _]]].
  exists token. split; assumption.
Defined.

Lemma identity_of_token_data (u : Models.UserInfo) :
  Specified.identity_of (Main.token_data u) = u.
Proof.
  destruct u as [uname [mail|] [fn|] [ln|] rs uid]; reflexivity.
Qed.

(** ** Login and password reset *)

Section LoginProperties.

Import Models Auth Main.

Lemma development_user_has_user (granted : list string) :
  In "user" (development_user_roles "37099475" granted).
Proof.
  unfold development_user_roles. simpl.
  destruct (str_in "user" granted) eqn:E; simpl.
  - now apply str_in_In.
  - apply in_or_app. right. now left.
Qed.

(** Every handler of [authenticate_user] ends in a [raise]. *)
Lemma authenticate_user_success (kc : Keycloak) (uname password : string) (u : UserInfo) :
  authenticate_user kc uname password = Return u ->
  exists openid access_token token_info,
    keycloak_openid kc = Some openid
    /\ token openid uname password = Return access_token
    /\ introspect openid access_token = Return token_info
    /\ roles u = development_user_roles uname (flatten_roles token_info).
Proof.
  unfold authenticate_user.
  destruct (keycloak_openid kc) as [openid|]; [|discriminate].
  destruct (token openid uname password) as [access_token|e] eqn:Htoken; simpl.
  2: { destruct e; simpl; try discriminate;
       match goal with |- context [if ?b then _ else _] => destruct b end;
       discriminate. }
  destruct (userinfo openid access_token) as [ui|e] eqn:Hui; simpl.
  2: { destruct e; simpl; try discriminate;
       match goal with |- context [if ?b then _ else _] => destruct b end;
       discriminate. }
  destruct (introspect openid access_token) as [token_info|e] eqn:Hti; simpl.
  2: { destruct e; simpl; try discriminate;
       match goal with |- context [if ?b then _ else _] => destruct b end;
       discriminate. }
  destruct (preferred_username ui); simpl; try discriminate;
    (destruct (ui_sub ui); simpl; [|discriminate]);
    intros H; injection H as <-;
    exists openid, access_token, token_info; repeat split; assumption.
Qed.

(** C10: for the literal username "37099475", every successful
    authentication yields a role list that contains "user", whatever the
    identity provider granted: the list is the granted one when it has
    "user" already, and the granted one with "user" appended otherwise. *)
Theorem C10_development_user_gets_user_role (kc : Keycloak) (password : string)
    (u : UserInfo) :
  authenticate_user kc "37099475" password = Return u ->
  In "user" (roles u)
  /\ exists openid access_token token_info,
       keycloak_openid kc = Some openid
       /\ token openid "37099475" password = Return access_token
       /\ introspect openid access_token = Return token_info
       /\ roles u = if str_in "user" (flatten_roles token_info)
                    then flatten_roles token_info
                    else (flatten_roles token_info ++ ["user"])%list.
Proof.
  intros H.
  destruct (authenticate_user_success _ _ _ _ H)
    as [openid [access_token [token_info [Hk [Ht [Hi Hr]]]]]].
  split.
  - rewrite Hr. apply development_user_has_user.
  - exists openid, access_token, token_info. repeat split; try assumption.
    rewrite Hr. unfold development_user_roles. simpl.
    now destruct (str_in "user" (flatten_roles token_info)).
Qed.

(** The identity provider grants "viewer" only. *)
Lemma C10_development_user_gets_user_role_witness :
  authenticate_user (Sample.granting ["viewer"]) "37099475" "secret"
  = Return (Sample.session_of "37099475" ["viewer"; "user"])
  /\ In "user" (roles (Sample.session_of "37099475" ["viewer"; "user"])).
Proof.
  split; [reflexivity|].
  apply (C10_development_user_gets_user_role (Sample.granting ["viewer"]) "secret").
  reflexivity.
Defined.

Lemma send_password_reset_email_true (kc : Keycloak) (admin : KeycloakAdmin)
    (email : string) :
  keycloak_admin kc = Some admin ->
  send_password_reset_email kc email = Return true.
Proof.
  intros Hk. unfold send_password_reset_email. rewrite Hk.
  destruct (get_users admin email) as [[|user users]|e]; simpl; try reflexivity.
  destruct (kc_id user) as [uid|]; simpl; [|reflexivity].
  destruct (send_update_account admin uid) as [[]|e]; reflexivity.
Qed.

(** C7: for every email input and every state of the identity provider,
    POST /auth/password-reset answers success = true with one fixed
    message; two runs that differ in the identity provider (in whether an
    account with that email exists, in whether it can be reached at all)
    give identical responses. *)
Theorem C7_password_reset_reveals_nothing :
  (forall kc email,
      request_password_reset kc email = Return password_reset_response)
  /\ success password_reset_response = true
  /\ (forall kc1 kc2 email,
        request_password_reset kc1 email = request_password_reset kc2 email).
Proof.
  assert (H : forall kc email,
             request_password_reset kc email = Return password_reset_response).
  { intros kc email. unfold request_password_reset.
    destruct (send_password_reset_email kc email); reflexivity. }
  split; [exact H|]. split; [reflexivity|].
  intros kc1 kc2 email. now rewrite !H.
Qed.

End LoginProperties.

(** ** The profile store *)

Section ProfileProperties.

Import Models UserService Main Specified.

Variable UUID : string -> string + N.

Lemma find_has_keycloak_id (k : N) (l : list User) :
  (exists row, In row l /\ keycloak_id row = k) ->
  existsb (has_keycloak_id k) l = true
  /\ exists found, List.find (has_keycloak_id k) l = Some found.
Proof.
  intros [row [Hin Hk]].
  assert (Hb : has_keycloak_id k row = true)
    by (unfold has_keycloak_id; rewrite Hk; apply N.eqb_refl).
  split.
  - apply existsb_exists. now exists row.
  - destruct (List.find (has_keycloak_id k) l) as [found|] eqn:E; [now exists found|].
    pose proof (find_none _ _ E row Hin) as Hn. congruence.
Qed.

Lemma statements_since (db : Db) (stmts : list statement) :
  List.skipn (length (log db)) (log db ++ stmts) = stmts.
Proof.
  rewrite List.skipn_app, List.skipn_all, Nat.sub_diag. reflexivity.
Qed.

Lemma keycloak_id_absent (k : N) (l : list User) :
  existsb (has_keycloak_id k) l = false -> ~ In k (map keycloak_id l).
Proof.
  intros H Hin. apply in_map_iff in Hin as [row [Hk Hin]].
  assert (Ht : existsb (has_keycloak_id k) l = true).
  { apply existsb_exists. exists row. split; [assumption|].
    unfold has_keycloak_id. rewrite Hk. apply N.eqb_refl. }
  congruence.
Qed.

(** ** Values that their columns take as they are *)

Lemma split_chars_all (n : nat) (s : string) :
  (char_length s <= n)%nat -> split_chars n s = (s, EmptyString).
Proof.
  revert n. induction s as [|c s IH]; intros n H; simpl in *; [reflexivity|].
  destruct (is_continuation c).
  - now rewrite IH.
  - destruct n as [|m]; [lia|]. rewrite IH by lia. reflexivity.
Qed.

Lemma fits_taken (t : ColumnType) (v : option string) :
  fits t v = true -> has_nul v = false /\ too_long t v = false /\ stored t v = v.
Proof.
  unfold fits, too_long, stored. intros H. apply andb_true_iff in H as [Hn Hw].
  apply negb_true_iff in Hn. split; [exact Hn|].
  destruct t as [n|], v as [s|]; try (split; reflexivity).
  apply Nat.leb_le in Hw. rewrite (split_chars_all n s Hw). split; reflexivity.
Qed.

Ltac taken H :=
  let Hn := fresh "Hnul" in
  let Hl := fresh "Hlong" in
  let Hs := fresh "Hstored" in
  apply fits_taken in H as [Hn [Hl Hs]].

(** With values that fit, the INSERT meets the unique constraint only. *)
Lemma add_commit_refresh_fitting (now : Z) (k : N) (profile_data : UserProfileCreate)
    (db : Db) :
  fits_columns profile_data = true ->
  add_commit_refresh now k profile_data db
  = if existsb (has_keycloak_id k) (rows db)
    then ({| rows := rows db; serial := serial db + 1; log := log db ++ [INSERT k] |},
          Raise IntegrityError)
    else
      let db_user := {| id := serial db;
                        keycloak_id := k;
                        full_name := Some (upc_full_name profile_data);
                        phone := upc_phone profile_data;
                        address := upc_address profile_data;
                        city := upc_city profile_data;
                        country := upc_country profile_data;
                        timezone := upc_timezone profile_data;
                        created_at := now;
                        updated_at := now |} in
      ({| rows := rows db ++ [db_user]; serial := serial db + 1;
          log := log db ++ [INSERT k; COMMIT] |},
       Return db_user).
Proof.
  unfold fits_columns. intros H.
  do 5 (apply andb_true_iff in H as [H ?]).
  repeat match goal with
         | F : fits _ _ = true |- _ => taken F
         end.
  unfold add_commit_refresh. cbv zeta.
  repeat match goal with
         | E : has_nul _ = false |- _ => rewrite E; clear E
         end.
  repeat match goal with
         | E : too_long _ _ = false |- _ => rewrite E; clear E
         end.
  repeat match goal with
         | E : stored _ _ = _ |- _ => rewrite E; clear E
         end.
  reflexivity.
Qed.

(** What the INSERT does to the table, whatever the values. *)
Lemma add_commit_refresh_effect (now : Z) (k : N) (profile_data : UserProfileCreate)
    (db : Db) :
  match add_commit_refresh now k profile_data db with
  | (db', Return db_user) =>
      rows db' = (rows db ++ [db_user])%list
      /\ serial db' = serial db + 1
      /\ id db_user = serial db
      /\ keycloak_id db_user = k
      /\ existsb (has_keycloak_id k) (rows db) = false
  | (db', Raise e) =>
      rows db' = rows db
      /\ (serial db' = serial db \/ serial db' = serial db + 1)
      /\ e <> ValueError "User profile already exists"
  end.
Proof.
  unfold add_commit_refresh. cbv zeta.
  destruct (has_nul _ || has_nul _ || has_nul _ || has_nul _ || has_nul _ || has_nul _);
    [repeat split; [now left | discriminate]|].
  destruct (too_long _ _ || too_long _ _ || too_long _ _ || too_long _ _
            || too_long _ _ || too_long _ _);
    [repeat split; [now left | discriminate]|].
  destruct (existsb (has_keycloak_id k) (rows db)) eqn:E;
    [repeat split; [now right | discriminate]|].
  repeat split.
Qed.

(** The adapter never leaves two rows with one identity. *)
Lemma create_user_profile_unique (now : Z) (kid : string)
    (profile_data : UserProfileCreate) (db : Db) :
  one_profile_per_identity db ->
  one_profile_per_identity (fst (create_user_profile UUID now kid profile_data db)).
Proof.
  unfold one_profile_per_identity, create_user_profile, mtry, mbind, rollback, raise.
  intros H. destruct (UUID kid) as [msg|k]; [exact H|].
  pose proof (add_commit_refresh_effect now k profile_data db) as He.
  destruct (add_commit_refresh now k profile_data db) as [db' [db_user|e]].
  - destruct He as [Hrows [_ [_ [Hk E]]]]. cbn [fst]. rewrite Hrows.
    rewrite List.map_app. simpl. apply NoDup_app. split; [exact H|]. split.
    + intros x Hx Hin. apply list_elem_of_In in Hx. apply list_elem_of_In in Hin.
      destruct Hin as [<-|[]]. rewrite Hk in Hx. now apply (keycloak_id_absent _ _ E).
    + apply NoDup_singleton.
  - destruct He as [Hrows _]. destruct e; cbn [fst issue rows]; now rewrite Hrows.
Qed.

Lemma update_keeps_keycloak_ids (now : Z) (loaded current : User) (i : Z) (l : list User) :
  map keycloak_id (map (fun r => if has_id i r
                                 then apply_update now loaded current r
                                 else r) l)
  = map keycloak_id l.
Proof.
  induction l as [|r l IH]; simpl; [reflexivity|].
  rewrite IH. now destruct (has_id i r).
Qed.

(** What [db.commit()] does to the table, whatever the values. *)
Lemma commit_object_effect (now : Z) (loaded current : User) (db : Db) :
  let db' := fst (commit_object now loaded current db) in
  serial db' = serial db
  /\ (rows db' = rows db
      \/ rows db' = map (fun r => if has_id (id current) r
                                  then apply_update now loaded current r
                                  else r) (rows db)).
Proof.
  unfold commit_object. cbv zeta.
  destruct (is_modified loaded current); [|split; [reflexivity | now left]].
  destruct (any_changed (fun _ => has_nul) loaded current);
    [split; [reflexivity | now left]|].
  destruct (any_changed too_long loaded current);
    [split; [reflexivity | now left]|].
  destruct (existsb _ (rows db)); split; try reflexivity; [now right | now left].
Qed.

(** The rows of the table after [update_user_profile] are those after its
    [db.commit()]. *)
Lemma update_user_profile_rows (now : Z) (user : User)
    (profile_data : UserProfileUpdate) (db : Db) :
  let db' := fst (update_user_profile now user profile_data db) in
  let committed := fst (commit_object now user (assign_fields user profile_data) db) in
  rows db' = rows committed /\ serial db' = serial committed.
Proof.
  unfold update_user_profile, mtry, mbind, refresh, rollback, raise. cbv zeta.
  destruct (commit_object now user (assign_fields user profile_data) db)
    as [db' [[]|e]]; simpl.
  - destruct (List.find _ (rows db')); simpl; split; reflexivity.
  - destruct e; simpl; split; reflexivity.
Qed.

Lemma update_user_profile_unique (now : Z) (user : User)
    (profile_data : UserProfileUpdate) (db : Db) :
  one_profile_per_identity db ->
  one_profile_per_identity (fst (update_user_profile now user profile_data db)).
Proof.
  unfold one_profile_per_identity. intros H.
  destruct (update_user_profile_rows now user profile_data db) as [-> _].
  destruct (commit_object_effect now user (assign_fields user profile_data) db)
    as [_ [-> | ->]]; [exact H|].
  now rewrite update_keeps_keycloak_ids.
Qed.

Lemma create_my_profile_unique (now : Z) (current_user : UserInfo)
    (profile_data : UserProfileCreate) (db : Db) :
  one_profile_per_identity db ->
  one_profile_per_identity (fst (create_my_profile UUID now current_user profile_data db)).
Proof.
  intros H.
  pose proof (create_user_profile_unique now (user_id current_user) profile_data
                (issue db match UUID (user_id current_user) with
                          | inr k => [SELECT_keycloak_id k]
                          | inl _ => []
                          end)) as Hc.
  unfold create_my_profile, mtry, mbind, get_user_by_keycloak_id in *.
  destruct (UUID (user_id current_user)) as [msg|k] eqn:Eu; simpl.
  - unfold profile_except, raise. simpl. exact H.
  - destruct (List.find (has_keycloak_id k) (rows db)) as [found|]; simpl.
    + exact H.
    + specialize (Hc H).
      destruct (create_user_profile UUID now (user_id current_user) profile_data
                  (issue db [SELECT_keycloak_id k])) as [db' [user|e]]; simpl in *.
      * unfold profile_response. destruct (full_name user); exact Hc.
      * unfold profile_except, raise.
        destruct (isinstance_ValueError e); [exact Hc|]. destruct e; exact Hc.
Qed.

(** C8 as stated fails, twice.  For an identity that has a profile, the 409
    of POST /users/me is produced after a single SELECT: no INSERT reaches
    the store, so the uniqueness constraint is not what rejects the call.
    And the adapter, called for such an identity with a telephone number
    that is longer than its column, fails with the store's DataError, not
    with the duplicate-profile error. *)
Lemma C8_conflict_without_insert :
  let current_user := Sample.session_of "bob" [] in
  let route := create_my_profile Sample.UUID 200 current_user
                 Sample.new_profile Sample.db1 in
  let adapter := create_user_profile Sample.UUID 200 (user_id current_user)
                   Sample.long_phone_profile Sample.db1 in
  (In Sample.stored_profile (rows Sample.db1)
   /\ Sample.UUID (user_id current_user) = inr (keycloak_id Sample.stored_profile))
  /\ (snd route = Raise (HTTPException 409 "User profile already exists. Use PUT to update.")
      /\ log (fst route) = [SELECT_keycloak_id (keycloak_id Sample.stored_profile)]
      /\ constraint_consulted Sample.db1 (fst route) = false)
  /\ (char_length Sample.long_phone = 60%nat
      /\ snd adapter = Raise (OtherException "DataError")
      /\ snd adapter <> Raise (ValueError "User profile already exists")).
Proof.
  cbv zeta. split; [split; [now left | reflexivity]|].
  split; [repeat split; reflexivity|].
  split; [reflexivity|]. split; [reflexivity | discriminate].
Qed.

(** C8, amended: for every identity that already has a profile row,
    POST /users/me answers 409 and leaves the table as it was, the
    rejection coming from a lookup made before any insert; the adapter
    [create_user_profile] has no such lookup: with values that fit their
    columns, its insert is refused by the uniqueness constraint on the
    identity column, and it rolls back and raises the duplicate error with
    the rows unchanged; creating and updating keep at most one row per
    identity. *)
Theorem C8_duplicate_profile_rejected (now : Z) (db : Db) :
  (forall current_user profile_data k row,
      UUID (user_id current_user) = inr k ->
      In row (rows db) -> keycloak_id row = k ->
      (let route := create_my_profile UUID now current_user profile_data db in
       snd route = Raise (HTTPException 409 "User profile already exists. Use PUT to update.")
       /\ rows (fst route) = rows db
       /\ constraint_consulted db (fst route) = false)
      /\ (fits_columns profile_data = true ->
          let adapter := create_user_profile UUID now (user_id current_user)
                           profile_data db in
          snd adapter = Raise (ValueError "User profile already exists")
          /\ rows (fst adapter) = rows db
          /\ log (fst adapter) = (log db ++ [INSERT k; ROLLBACK])%list
          /\ constraint_consulted db (fst adapter) = true))
  /\ (one_profile_per_identity db ->
      (forall kid profile_data,
          one_profile_per_identity (fst (create_user_profile UUID now kid profile_data db)))
      /\ (forall current_user profile_data,
            one_profile_per_identity
              (fst (create_my_profile UUID now current_user profile_data db)))
      /\ (forall user patch,
            one_profile_per_identity (fst (update_user_profile now user patch db)))).
Proof.
  split.
  - intros current_user profile_data k row Hu Hin Hk.
    destruct (find_has_keycloak_id k (rows db)) as [Hex [found Hfind]];
      [now exists row|].
    split.
    + unfold create_my_profile, mtry, mbind, get_user_by_keycloak_id.
      rewrite Hu, Hfind. cbn. split; [reflexivity|]. split; [reflexivity|].
      unfold constraint_consulted. cbn [log issue fst].
      now rewrite statements_since.
    + intros Hfits. unfold create_user_profile, mtry, mbind, rollback, raise.
      rewrite Hu. rewrite (add_commit_refresh_fitting _ _ _ _ Hfits), Hex.
      cbn. split; [reflexivity|]. split; [reflexivity|].
      split; [now rewrite <- app_assoc|].
      unfold constraint_consulted. cbn [log issue fst].
      rewrite <- app_assoc. now rewrite statements_since.
  - intros H. split; [|split].
    + intros kid profile_data. now apply create_user_profile_unique.
    + intros current_user profile_data. now apply create_my_profile_unique.
    + intros user patch. now apply update_user_profile_unique.
Qed.

Lemma option_eqb_eq (a b : option string) : option_eqb a b = true <-> a = b.
Proof.
  destruct a as [x|], b as [y|]; simpl; split; intros H;
    try discriminate; try reflexivity.
  - apply String.eqb_eq in H. now subst.
  - injection H as ->. apply String.eqb_refl.
Qed.

Lemma option_eqb_overwrite (old patch : option string) :
  option_eqb old (overwrite old patch) = negb (brings_change old patch).
Proof.
  destruct patch as [v|]; simpl.
  - now rewrite negb_involutive.
  - now apply option_eqb_eq.
Qed.

Lemma is_modified_any_change (user : User) (patch : UserProfileUpdate) :
  is_modified user (assign_fields user patch) = any_change user patch.
Proof.
  unfold is_modified, any_change, assign_fields. simpl.
  rewrite !option_eqb_overwrite.
  repeat match goal with
         | |- context [brings_change ?a ?b] => destruct (brings_change a b)
         end; reflexivity.
Qed.

(** A patch value that fits its column is never refused. *)
Lemma changed_and_overwrite (test : option string -> bool) (old patch : option string) :
  test patch = false -> changed_and test old (overwrite old patch) = false.
Proof.
  unfold changed_and. intros H. destruct patch as [v|]; simpl.
  - rewrite H. apply andb_false_r.
  - assert (E : option_eqb old old = true) by now apply option_eqb_eq.
    now rewrite E.
Qed.

Lemma patch_is_taken (user : User) (patch : UserProfileUpdate) :
  patch_fits_columns patch = true ->
  any_changed (fun _ => has_nul) user (assign_fields user patch) = false
  /\ any_changed too_long user (assign_fields user patch) = false.
Proof.
  unfold patch_fits_columns. intros H.
  do 5 (apply andb_true_iff in H as [H ?]).
  repeat match goal with
         | F : fits _ _ = true |- _ => taken F
         end.
  unfold any_changed, assign_fields.
  cbn [full_name phone address city country timezone].
  cbv beta.
  repeat match goal with
         | |- context [changed_and ?test ?old (overwrite ?old ?new)] =>
             rewrite (changed_and_overwrite test old new) by assumption
         end.
  split; reflexivity.
Qed.

(** Reading back a field after the UPDATE. *)
Lemma set_if_changed_overwrite (t : ColumnType) (old patch : option string) :
  fits t patch = true ->
  field_patched old patch (set_if_changed t old (overwrite old patch) old).
Proof.
  intros H. taken H. unfold set_if_changed, field_patched.
  destruct patch as [v|]; cbn [overwrite].
  - rewrite Hstored.
    destruct (option_eqb old (Some v)) eqn:E;
      [exact (proj1 (option_eqb_eq _ _) E) | reflexivity].
  - now rewrite (proj2 (option_eqb_eq old old) eq_refl).
Qed.

Lemma unchanged_field_patched (old patch : option string) :
  brings_change old patch = false -> field_patched old patch old.
Proof.
  unfold brings_change, field_patched. destruct patch as [v|]; [|reflexivity].
  intros H. apply negb_false_iff in H. now apply option_eqb_eq.
Qed.

Lemma find_by_id (u : User) (l : list User) :
  NoDup (map id l) -> In u l -> List.find (has_id (id u)) l = Some u.
Proof.
  induction l as [|a l IH]; simpl; [contradiction|].
  intros Hnd [->|Hin].
  - unfold has_id. now rewrite Z.eqb_refl.
  - apply NoDup_cons in Hnd as [Hnot Hnd].
    destruct (has_id (id u) a) eqn:E; [|now apply IH].
    unfold has_id in E. apply Z.eqb_eq in E. exfalso. apply Hnot.
    apply list_elem_of_In. rewrite E. now apply in_map.
Qed.

Lemma find_updated (u : User) (g : User -> User) (l : list User) :
  (forall r, id (g r) = id r) ->
  NoDup (map id l) -> In u l ->
  List.find (has_id (id u)) (map (fun r => if has_id (id u) r then g r else r) l)
  = Some (g u).
Proof.
  intros Hg. induction l as [|a l IH]; simpl; [contradiction|].
  intros Hnd [->|Hin].
  - unfold has_id at 2. rewrite Z.eqb_refl. unfold has_id. now rewrite Hg, Z.eqb_refl.
  - apply NoDup_cons in Hnd as [Hnot Hnd].
    destruct (has_id (id u) a) eqn:E.
    + unfold has_id in E. apply Z.eqb_eq in E. exfalso. apply Hnot.
      apply list_elem_of_In. rewrite E. now apply in_map.
    + rewrite E. now apply IH.
Qed.

(** C9 as stated fails, twice.  A patch that changes nothing sends no
    UPDATE, and [updated_at] keeps its value although the clock has moved
    on.  And a patch with a telephone number that is longer than its
    column is refused by the store: the update raises DataError and no
    field is overwritten. *)
Lemma C9_empty_patch_keeps_updated_at :
  let unchanged := update_user_profile 200 Sample.stored_profile Sample.empty_patch
                     Sample.db1 in
  let refused := update_user_profile 200 Sample.stored_profile Sample.long_phone_patch
                   Sample.db1 in
  In Sample.stored_profile (rows Sample.db1)
  /\ (snd unchanged = Return Sample.stored_profile
      /\ updated_at Sample.stored_profile = 100
      /\ updated_at Sample.stored_profile <> 200
      /\ log (fst unchanged) = [COMMIT])
  /\ (upu_phone Sample.long_phone_patch = Some Sample.long_phone
      /\ char_length Sample.long_phone = 60%nat
      /\ snd refused = Raise (OtherException "DataError")
      /\ rows (fst refused) = rows Sample.db1).
Proof.
  cbv zeta. split; [now left|]. split.
  - split; [reflexivity|]. split; [reflexivity|].
    split; [discriminate | reflexivity].
  - repeat split; reflexivity.
Qed.

(** C9, amended: for every stored profile and every patch whose values
    fit their columns, the update returns (and stores) the row in which
    each field that is present and non-null in the patch holds the patch
    value and every other field its prior value; id, identity and creation
    time are kept and the other rows are untouched; [updated_at] becomes
    the current time when the patch changes the value of at least one
    field, and keeps its value when the patch changes nothing. *)
Theorem C9_partial_update (now : Z) (user : User) (patch : UserProfileUpdate) (db : Db) :
  In user (rows db) ->
  NoDup (map id (rows db)) ->
  patch_fits_columns patch = true ->
  exists db' user',
    update_user_profile now user patch db = (db', Return user')
    /\ In user' (rows db')
    /\ field_patched (full_name user) (upu_full_name patch) (full_name user')
    /\ field_patched (phone user) (upu_phone patch) (phone user')
    /\ field_patched (address user) (upu_address patch) (address user')
    /\ field_patched (city user) (upu_city patch) (city user')
    /\ field_patched (country user) (upu_country patch) (country user')
    /\ field_patched (timezone user) (upu_timezone patch) (timezone user')
    /\ (id user' = id user /\ keycloak_id user' = keycloak_id user
        /\ created_at user' = created_at user)
    /\ updated_at user' = (if any_change user patch then now else updated_at user)
    /\ (forall r, id r <> id user -> (In r (rows db) <-> In r (rows db'))).
Proof.
  intros Hin Hnd Hfits.
  destruct (patch_is_taken user patch Hfits) as [Hnul Hlong].
  unfold update_user_profile, mtry, mbind, commit_object, refresh.
  rewrite is_modified_any_change, Hnul, Hlong.
  unfold patch_fits_columns in Hfits.
  do 5 (apply andb_true_iff in Hfits as [Hfits ?]).
  destruct (any_change user patch) eqn:Hc.
  - assert (Hex : existsb (has_id (id (assign_fields user patch))) (rows db) = true).
    { apply existsb_exists. exists user. split; [assumption|].
      unfold has_id. simpl. apply Z.eqb_refl. }
    rewrite Hex. cbn [rows id assign_fields].
    rewrite (find_updated user (apply_update now user (assign_fields user patch)))
      by (reflexivity || assumption).
    eexists. eexists. split; [reflexivity|].
    split.
    { cbn [rows]. apply in_map_iff. exists user. split; [|assumption].
      unfold has_id. now rewrite Z.eqb_refl. }
    cbn [apply_update assign_fields full_name phone address city country timezone
         id keycloak_id created_at updated_at].
    repeat (split; [now apply set_if_changed_overwrite|]).
    split; [repeat split|]. split; [reflexivity|].
    intros r Hr. cbn [rows]. split.
    + intros Hr_in. apply in_map_iff. exists r. split; [|assumption].
      destruct (has_id (id user) r) eqn:E; [|reflexivity].
      unfold has_id in E. apply Z.eqb_eq in E. contradiction.
    + intros Hr_in. apply in_map_iff in Hr_in as [r0 [Hr0 Hr0_in]].
      destruct (has_id (id user) r0) eqn:E.
      * subst r. simpl in Hr. unfold has_id in E. apply Z.eqb_eq in E. contradiction.
      * now subst r0.
  - cbn [issue rows id assign_fields].
    rewrite (find_by_id user) by assumption.
    assert (Hfields := Hc). unfold any_change in Hfields.
    repeat (apply orb_false_iff in Hfields as [Hfields ?]).
    eexists. eexists. split; [reflexivity|].
    split; [assumption|].
    repeat (split; [now apply unchanged_field_patched|]).
    split; [repeat split|]. split; [reflexivity|].
    intros r _. reflexivity.
Qed.

End ProfileProperties.

(** A second profile for the identity of the stored row. *)
Lemma C8_duplicate_profile_rejected_witness :
  let current_user := Sample.session_of "bob" [] in
  let adapter := UserService.create_user_profile Sample.UUID 200
                   (Models.user_id current_user) Sample.new_profile Sample.db1 in
  (Sample.UUID (Models.user_id current_user) = inr (UserService.keycloak_id Sample.stored_profile)
   /\ In Sample.stored_profile (UserService.rows Sample.db1)
   /\ Specified.fits_columns Sample.new_profile = true
   /\ snd (Main.create_my_profile Sample.UUID 200 current_user Sample.new_profile Sample.db1)
      = Raise (HTTPException 409 "User profile already exists. Use PUT to update.")
   /\ snd adapter = Raise (ValueError "User profile already exists")
   /\ UserService.rows (fst adapter) = UserService.rows Sample.db1)
  /\ (Specified.one_profile_per_identity Sample.db1
      /\ Specified.one_profile_per_identity
           (fst (Main.create_my_profile Sample.UUID 200 current_user Sample.new_profile
                   Sample.db1))).
Proof.
  cbv zeta.
  destruct (C8_duplicate_profile_rejected Sample.UUID 200 Sample.db1) as [Hdup Huniq].
  assert (H1 : Specified.one_profile_per_identity Sample.db1).
  { unfold Specified.one_profile_per_identity. simpl. apply NoDup_singleton. }
  split.
  - split; [reflexivity|]. split; [now left|]. split; [reflexivity|].
    destruct (Hdup (Sample.session_of "bob" []) Sample.new_profile
                (UserService.keycloak_id Sample.stored_profile) Sample.stored_profile)
      as [[Hroute _] Hadapter]; [reflexivity | now left | reflexivity |].
    destruct (Hadapter eq_refl) as [Hraised [Hrows _]].
    split; [exact Hroute|]. split; [exact Hraised | exact Hrows].
  - split; [exact H1|]. apply (Huniq H1).
Defined.

(** The scenario [existing = {city: "A"}], [patch = {city: null, country: "B"}]. *)
Lemma C9_partial_update_witness :
  In Sample.stored_profile (UserService.rows Sample.db1)
  /\ NoDup (map UserService.id (UserService.rows Sample.db1))
  /\ Specified.patch_fits_columns Sample.country_patch = true
  /\ exists db' user',
       UserService.update_user_profile 200 Sample.stored_profile Sample.country_patch
         Sample.db1 = (db', Return user')
       /\ UserService.city user' = Some "A"
       /\ UserService.country user' = Some "B"
       /\ UserService.updated_at user' = 200.
Proof.
  assert (Hin : In Sample.stored_profile (UserService.rows Sample.db1)) by now left.
  assert (Hnd : NoDup (map UserService.id (UserService.rows Sample.db1)))
    by (simpl; apply NoDup_singleton).
  split; [exact Hin|]. split; [exact Hnd|]. split; [reflexivity|].
  destruct (C9_partial_update 200 Sample.stored_profile Sample.country_patch Sample.db1
              Hin Hnd eq_refl)
    as [db' [user' [Hrun [_ [_ [_ [_ [Hcity [Hcountry [_ [_ [Hupd _]]]]]]]]]]]].
  exists db', user'. split; [exact Hrun|].
  split; [exact Hcity|]. split; [exact Hcountry | exact Hupd].
Defined.

(** ** Further properties of role extraction and permission derivation *)

Section MoreRoleProperties.

Import RoleManagement Specified.

Lemma elem_of_all_permissions (p : string) (roles : list UserRole) :
  p ∈ all_permissions roles <-> exists r, In r roles /\ In p (permissions r).
Proof.
  induction roles as [|r roles IH]; simpl.
  - split; [intros H; now apply not_elem_of_empty in H | intros [r [[] _]]].
  - rewrite elem_of_union, elem_of_list_to_set, IH, list_elem_of_In. split.
    + intros [H|[r' [Hin Hp]]]; [exists r; auto | exists r'; auto].
    + intros [r' [[<-|Hin] Hp]]; [now left | right; now exists r'].
Qed.

Lemma any_has_permission_elem (p : string) (roles : list UserRole) :
  any_has_permission p roles = bool_decide (p ∈ all_permissions roles).
Proof.
  destruct (any_has_permission p roles) eqn:E; symmetry.
  - apply bool_decide_eq_true. apply elem_of_all_permissions.
    apply existsb_exists in E as [r [Hin Hp]]. exists r. split; [assumption|].
    now apply str_in_In.
  - apply bool_decide_eq_false. intros H.
    apply elem_of_all_permissions in H as [r [Hin Hp]].
    assert (Ht : any_has_permission p roles = true).
    { apply existsb_exists. exists r. split; [assumption|]. now apply str_in_In. }
    congruence.
Qed.

Lemma existsb_orb {A : Type} (f g : A -> bool) (l : list A) :
  existsb (fun x => f x || g x) l = existsb f l || existsb g l.
Proof.
  induction l as [|x l IH]; simpl; [reflexivity|].
  rewrite IH. destruct (f x), (g x), (existsb f l); reflexivity.
Qed.

Lemma elem_of_session_permissions (p : string) (names : list string) :
  p ∈ get_user_permissions_from_roles names
  <-> exists n, In n names /\ In p (name_permissions n).
Proof.
  induction names as [|n names IH]; simpl.
  - split; [intros H; now apply not_elem_of_empty in H | intros [n [[] _]]].
  - assert (Hn : p ∈ match get_role_permissions n REALM None with
                     | [] => list_to_set (get_role_permissions n CLIENT None)
                             ∪ get_user_permissions_from_roles names
                     | ps => list_to_set ps ∪ get_user_permissions_from_roles names
                     end
                 <-> In p (name_permissions n)
                     \/ p ∈ get_user_permissions_from_roles names).
    { unfold name_permissions.
      destruct (get_role_permissions n REALM None);
        now rewrite elem_of_union, elem_of_list_to_set, list_elem_of_In. }
    rewrite Hn, IH. split.
    + intros [H|[n' [Hin Hp]]]; [exists n; auto | exists n'; auto].
    + intros [n' [[<-|Hin] Hp]]; [now left | right; now exists n'].
Qed.

(** Case analysis on the six names that have a table entry. *)
Ltac table_cases n :=
  destruct (String.eqb_spec n "user") as [->|?];
  [|destruct (String.eqb_spec n "admin") as [->|?];
    [|destruct (String.eqb_spec n "moderator") as [->|?];
      [|destruct (String.eqb_spec n "dashboard-user") as [->|?];
        [|destruct (String.eqb_spec n "dashboard-admin") as [->|?];
          [|destruct (String.eqb_spec n "api-consumer") as [->|?]]]]]].

Ltac other_name :=
  unfold get_role_permissions, ROLE_PERMISSIONS;
  cbn [dict_get]; unfold role_key_eqb; cbn [fst snd RoleType_eqb];
  repeat match goal with
         | H : ?n <> ?s |- _ => apply String.eqb_neq in H; rewrite ?H; clear H
         end;
  cbn [andb].

(** A name with a realm entry has no client entry. *)
Lemma realm_entry_excludes_client_entry (n : string) (c c' : option string) :
  get_role_permissions n REALM c <> [] -> get_role_permissions n CLIENT c' = [].
Proof.
  table_cases n; try reflexivity; try (intros H; now contradiction H).
  intros _. other_name. reflexivity.
Qed.

Lemma table_permissions_in_name_permissions (n p : string) (t : RoleType)
    (c : option string) :
  In p (get_role_permissions n t c) -> In p (name_permissions n).
Proof.
  unfold name_permissions. destruct t.
  - change (get_role_permissions n REALM c) with (get_role_permissions n REALM None).
    now destruct (get_role_permissions n REALM None).
  - change (get_role_permissions n CLIENT c) with (get_role_permissions n CLIENT None).
    destruct (get_role_permissions n REALM None) eqn:E; [trivial|].
    rewrite (realm_entry_excludes_client_entry n None None) by (rewrite E; discriminate).
    contradiction.
Qed.

Lemma extracted_role_shape (token_info : TokenInfo) (r : UserRole) :
  In r (extract_detailed_roles token_info) ->
  permissions r = get_role_permissions (name r) (type r) (client_id r)
  /\ description r = Some (get_role_description (name r) (type r)).
Proof.
  unfold extract_detailed_roles. intros Hin. apply in_app_or in Hin as [Hin|Hin].
  - unfold extract_realm_roles in Hin.
    destruct (realm_access token_info); [|contradiction].
    apply in_map_iff in Hin as [n [<- _]]. now split.
  - unfold extract_client_roles in Hin.
    destruct (resource_access token_info) as [items|]; [|contradiction].
    apply in_flat_map in Hin as [[cid a] [_ Hin]].
    apply in_map_iff in Hin as [n [<- _]]. now split.
Qed.

(** Extraction puts every realm assertion before every client assertion;
    a realm assertion carries no client and a name of the realm list, and
    every name of that list outside the three skipped ones has its
    assertion; a client assertion carries the client under which its name
    is listed, and every listed name other than "uma_protection" has its
    assertion for that client; each assertion holds the table's permissions and
    description for its name and scope; and the names that
    [authenticate_user] collects before its development-user step are the
    names of the assertions, duplicates included, in the same order. *)
Theorem extraction_shape (token_info : TokenInfo) :
  let entries := match resource_access token_info with
                 | Some items => items
                 | None => []
                 end in
  exists realm clients,
    extract_detailed_roles token_info = (realm ++ clients)%list
    /\ Forall (fun r => type r = REALM /\ client_id r = None
                        /\ exists ra, realm_access token_info = Some ra
                                      /\ In (name r) (get_roles ra)) realm
    /\ (forall ra n,
          realm_access token_info = Some ra -> In n (get_roles ra) ->
          ~ In n ["default-roles-master"; "offline_access"; "uma_authorization"] ->
          In (realm_role n) realm)
    /\ Forall (fun r => type r = CLIENT
                        /\ exists cid access,
                             In (cid, access) entries
                             /\ client_id r = Some cid
                             /\ In (name r) (get_roles access)) clients
    /\ (forall cid access n,
          In (cid, access) entries -> In n (get_roles access) ->
          n <> "uma_protection" -> In (client_role cid n) clients)
    /\ Forall (fun r => permissions r
                        = get_role_permissions (name r) (type r) (client_id r)
                        /\ description r
                           = Some (get_role_description (name r) (type r)))
              (realm ++ clients)
    /\ Auth.flatten_roles token_info = map name (realm ++ clients).
Proof.
  cbv zeta.
  exists (extract_realm_roles token_info), (extract_client_roles token_info).
  split; [reflexivity|]. split; [|split; [|split; [|split; [|split]]]].
  - apply List.Forall_forall. intros r Hin. unfold extract_realm_roles in Hin.
    destruct (realm_access token_info) as [ra|]; [|contradiction].
    apply in_map_iff in Hin as [n [<- Hn]]. apply filter_In in Hn as [Hn _].
    split; [reflexivity|]. split; [reflexivity|]. now exists ra.
  - intros ra n Hra Hn Hkept. unfold extract_realm_roles. rewrite Hra.
    apply in_map. apply filter_In. split; [exact Hn|].
    unfold keep_realm_role. apply negb_true_iff.
    destruct (str_in n _) eqn:E; [|reflexivity].
    apply str_in_In in E. contradiction.
  - apply List.Forall_forall. intros r Hin. unfold extract_client_roles in Hin.
    destruct (resource_access token_info) as [items|]; [|contradiction].
    apply in_flat_map in Hin as [[cid a] [Hitem Hin]].
    apply in_map_iff in Hin as [n [<- Hn]]. apply filter_In in Hn as [Hn _].
    split; [reflexivity|]. now exists cid, a.
  - intros cid access n Hitem Hn Hne. unfold extract_client_roles.
    destruct (resource_access token_info) as [items|]; [|contradiction].
    apply in_flat_map. exists (cid, access). split; [exact Hitem|].
    apply in_map. apply filter_In. split; [exact Hn|].
    unfold keep_client_role, str_in. cbn [existsb].
    destruct (String.eqb_spec n "uma_protection"); [contradiction | reflexivity].
  - apply List.Forall_forall. intros r Hin.
    now apply (extracted_role_shape token_info).
  - apply flatten_roles_names.
Qed.

(** Each permission flag of the aggregation over role objects says whether
    the permission is in the permission set returned with it. *)
Theorem permission_flags_match_permission_set (roles : list UserRole) :
  let result := calculate_user_permissions roles in
  let has p := bool_decide (p ∈ rp_permissions result) in
  rp_access_levels result !! "can_view_admin" = Some (has "system:admin")
  /\ rp_access_levels result !! "can_manage_users" = Some (has "users:manage")
  /\ rp_access_levels result !! "can_moderate" = Some (has "content:moderate")
  /\ rp_access_levels result !! "can_view_analytics" = Some (has "analytics:view")
  /\ rp_access_levels result !! "can_export_data" = Some (has "analytics:export")
  /\ rp_access_levels result !! "can_access_api"
     = Some (has "api:read" || has "api:write").
Proof.
  cbv zeta. unfold calculate_user_permissions. cbn [rp_access_levels rp_permissions].
  rewrite <- !any_has_permission_elem.
  repeat split; try reflexivity.
  change (access_levels_of_roles roles !! "can_access_api")
    with (Some (existsb (fun role => str_in "api:read" (permissions role)
                                     || str_in "api:write" (permissions role)) roles)).
  now rewrite existsb_orb.
Qed.

(** Whatever the payload, the permission set of the full-claims path is
    contained in the permission set that the session path derives from the
    flattened names. *)
Theorem full_permissions_within_session_permissions (token_info : TokenInfo) :
  rp_permissions (get_roles_for_frontend token_info)
  ⊆ get_user_permissions_from_roles (Auth.flatten_roles token_info).
Proof.
  intros p Hp. unfold get_roles_for_frontend, calculate_user_permissions in Hp.
  cbn [rp_permissions] in Hp.
  apply elem_of_all_permissions in Hp as [r [Hin Hperm]].
  apply elem_of_session_permissions. exists (name r). split.
  - rewrite flatten_roles_names. now apply in_map.
  - destruct (extracted_role_shape token_info r Hin) as [Hshape _].
    rewrite Hshape in Hperm.
    now apply table_permissions_in_name_permissions in Hperm.
Qed.

Lemma existsb_ext_in {A : Type} (f g : A -> bool) (l : list A) :
  (forall x, In x l -> f x = g x) -> existsb f l = existsb g l.
Proof.
  induction l as [|x l IH]; simpl; [reflexivity|].
  intros H. rewrite (H x) by now left. f_equal. apply IH.
  intros y Hy. apply H. now right.
Qed.

(** Only the realm entry of "admin" grants "system:admin" or "users:manage". *)
Lemma admin_permissions_only_realm_admin (n : string) (t : RoleType) (c : option string) :
  str_in "system:admin" (get_role_permissions n t c)
  = String.eqb n "admin" && RoleType_eqb t REALM
  /\ str_in "users:manage" (get_role_permissions n t c)
     = String.eqb n "admin" && RoleType_eqb t REALM.
Proof.
  table_cases n; destruct t; try (split; reflexivity); other_name; split; reflexivity.
Qed.

Lemma export_entry_has_view (n : string) (t : RoleType) (c : option string) :
  implb (str_in "analytics:export" (get_role_permissions n t c))
        (str_in "analytics:view" (get_role_permissions n t c)) = true.
Proof.
  table_cases n; destruct t; try reflexivity; other_name; reflexivity.
Qed.

Lemma existsb_implb {A : Type} (f g : A -> bool) (l : list A) :
  (forall x, In x l -> implb (f x) (g x) = true) ->
  implb (existsb f l) (existsb g l) = true.
Proof.
  induction l as [|x l IH]; simpl; [reflexivity|].
  intros H. pose proof (H x (or_introl eq_refl)) as Hx.
  assert (Hl : implb (existsb f l) (existsb g l) = true)
    by (apply IH; intros y Hy; apply H; now right).
  destruct (f x), (g x), (existsb f l), (existsb g l); simpl in *; congruence.
Qed.

Lemma common_element (l allowed : list string) :
  existsb (fun a => str_in a l) allowed = existsb (fun x => str_in x allowed) l.
Proof.
  destruct (existsb (fun x => str_in x allowed) l) eqn:E.
  - apply existsb_exists in E as [x [Hx Ha]]. apply existsb_exists.
    exists x. split; [now apply str_in_In | now apply str_in_In].
  - destruct (existsb (fun a => str_in a l) allowed) eqn:E'; [|reflexivity].
    apply existsb_exists in E' as [a [Ha Hl]].
    assert (Ht : existsb (fun x => str_in x allowed) l = true).
    { apply existsb_exists. exists a. split; [now apply str_in_In | now apply str_in_In]. }
    congruence.
Qed.

(** In the full-claims path the three administrator flags always hold the
    same value, and so do they in the session path; in both paths
    can_export_data is never true while can_view_analytics is false. *)
Theorem administrator_flags_coincide (token_info : TokenInfo) (names : list string) :
  let full := rp_access_levels (get_roles_for_frontend token_info) in
  let flat := Main.access_levels_of_names names in
  (exists b, full !! "is_admin" = Some b
             /\ full !! "can_view_admin" = Some b
             /\ full !! "can_manage_users" = Some b)
  /\ (exists b, flat !! "is_admin" = Some b
                /\ flat !! "can_view_admin" = Some b
                /\ flat !! "can_manage_users" = Some b)
  /\ (exists e v, full !! "can_export_data" = Some e
                  /\ full !! "can_view_analytics" = Some v
                  /\ implb e v = true)
  /\ (exists e v, flat !! "can_export_data" = Some e
                  /\ flat !! "can_view_analytics" = Some v
                  /\ implb e v = true).
Proof.
  cbv zeta. unfold get_roles_for_frontend, calculate_user_permissions.
  cbn [rp_access_levels].
  set (roles := extract_detailed_roles token_info).
  assert (Hshape : forall r, In r roles ->
            permissions r = get_role_permissions (name r) (type r) (client_id r))
    by (intros r Hr; now apply (extracted_role_shape token_info)).
  split; [|split; [|split]].
  - exists (existsb (fun role => String.eqb (name role) "admin"
                                 && RoleType_eqb (type role) REALM) roles).
    split; [reflexivity|]. split.
    + change (access_levels_of_roles roles !! "can_view_admin")
        with (Some (any_has_permission "system:admin" roles)).
      f_equal. apply existsb_ext_in. intros r Hr. rewrite (Hshape r Hr).
      apply admin_permissions_only_realm_admin.
    + change (access_levels_of_roles roles !! "can_manage_users")
        with (Some (any_has_permission "users:manage" roles)).
      f_equal. apply existsb_ext_in. intros r Hr. rewrite (Hshape r Hr).
      apply admin_permissions_only_realm_admin.
  - exists (str_in "admin" names). repeat split; reflexivity.
  - exists (any_has_permission "analytics:export" roles),
           (any_has_permission "analytics:view" roles).
    split; [reflexivity|]. split; [reflexivity|].
    apply existsb_implb. intros r Hr. rewrite (Hshape r Hr).
    apply export_entry_has_view.
  - exists (Main.any_role_in ["admin"; "dashboard-admin"] names),
           (Main.any_role_in ["admin"; "analyst"; "dashboard-admin"] names).
    split; [reflexivity|]. split; [reflexivity|].
    apply existsb_implb. intros x _. unfold str_in. simpl.
    destruct (String.eqb x "admin"), (String.eqb x "analyst"),
      (String.eqb x "dashboard-admin"); reflexivity.
Qed.

(** A role named "admin" that is granted in a client scope only is not an
    administrator in the full-claims path, but the session path, which
    sees the bare name, reports is_admin and derives "system:admin". *)
Theorem client_scoped_admin_is_admin_in_session (token_info : TokenInfo) :
  In "admin" (Auth.flatten_roles token_info) ->
  (forall ra, realm_access token_info = Some ra -> ~ In "admin" (get_roles ra)) ->
  let full := get_roles_for_frontend token_info in
  rp_access_levels full !! "is_admin" = Some false
  /\ ("system:admin" ∉ rp_permissions full)
  /\ Main.access_levels_of_names (Auth.flatten_roles token_info) !! "is_admin" = Some true
  /\ ("system:admin" ∈ get_user_permissions_from_roles (Auth.flatten_roles token_info)).
Proof.
  intros Hflat Hrealm. cbv zeta.
  assert (Hnone : existsb (fun role => String.eqb (name role) "admin"
                                       && RoleType_eqb (type role) REALM)
                          (extract_detailed_roles token_info) = false).
  { destruct (existsb _ (extract_detailed_roles token_info)) eqn:E; [|reflexivity].
    apply existsb_exists in E as [r [Hin Hr]].
    apply andb_true_iff in Hr as [Hn Ht]. apply String.eqb_eq in Hn.
    unfold extract_detailed_roles in Hin. apply in_app_or in Hin as [Hin|Hin].
    - unfold extract_realm_roles in Hin.
      destruct (realm_access token_info) as [ra|] eqn:Era; [|contradiction].
      apply in_map_iff in Hin as [n [<- Hn']]. simpl in Hn. subst n.
      apply filter_In in Hn' as [Hn' _]. exfalso. exact (Hrealm ra eq_refl Hn').
    - unfold extract_client_roles in Hin.
      destruct (resource_access token_info) as [items|]; [|contradiction].
      apply in_flat_map in Hin as [[cid a] [_ Hin]].
      apply in_map_iff in Hin as [n [<- _]]. discriminate Ht. }
  split; [|split; [|split]].
  - unfold get_roles_for_frontend, calculate_user_permissions. cbn [rp_access_levels].
    change (access_levels_of_roles (extract_detailed_roles token_info) !! "is_admin")
      with (Some (existsb (fun role => String.eqb (name role) "admin"
                                       && RoleType_eqb (type role) REALM)
                          (extract_detailed_roles token_info))).
    now rewrite Hnone.
  - unfold get_roles_for_frontend, calculate_user_permissions. cbn [rp_permissions].
    intros Hp. apply elem_of_all_permissions in Hp as [r [Hin Hp]].
    destruct (extracted_role_shape token_info r Hin) as [Hshape _].
    rewrite Hshape in Hp. apply str_in_In in Hp.
    rewrite (proj1 (admin_permissions_only_realm_admin _ _ _)) in Hp.
    assert (Ht : existsb (fun role => String.eqb (name role) "admin"
                                      && RoleType_eqb (type role) REALM)
                         (extract_detailed_roles token_info) = true)
      by (apply existsb_exists; now exists r).
    congruence.
  - change (Main.access_levels_of_names (Auth.flatten_roles token_info) !! "is_admin")
      with (Some (str_in "admin" (Auth.flatten_roles token_info))).
    f_equal. now apply str_in_In.
  - apply elem_of_session_permissions. exists "admin". split; [assumption|].
    vm_compute. tauto.
Qed.

(** The permissions of the session path are a union over the names: lists
    put end to end give the union of their permissions, and neither the
    order of the names nor a repeated name changes the result. *)
Theorem session_permissions_are_a_union (l1 l2 : list string) (n : string) :
  get_user_permissions_from_roles (l1 ++ l2)
  = get_user_permissions_from_roles l1 ∪ get_user_permissions_from_roles l2
  /\ get_user_permissions_from_roles (l1 ++ l2)
     = get_user_permissions_from_roles (l2 ++ l1)
  /\ get_user_permissions_from_roles (n :: n :: l1)
     = get_user_permissions_from_roles (n :: l1).
Proof.
  assert (Happ : forall a b : list string,
            get_user_permissions_from_roles (a ++ b)
            = get_user_permissions_from_roles a ∪ get_user_permissions_from_roles b).
  { intros a b. apply set_eq. intros p.
    rewrite elem_of_union, !elem_of_session_permissions. split.
    - intros [x [Hin Hp]]. apply in_app_or in Hin as [Hin|Hin];
        [left | right]; now exists x.
    - intros [[x [Hin Hp]]|[x [Hin Hp]]]; exists x; split; auto using in_or_app. }
  split; [apply Happ|]. split.
  - rewrite !Happ. apply set_eq. intros p. rewrite !elem_of_union. tauto.
  - apply set_eq. intros p. rewrite !elem_of_session_permissions. split.
    + intros [x [Hin Hp]]. exists x. split; [|assumption]. simpl in *. tauto.
    + intros [x [Hin Hp]]. exists x. split; [|assumption]. simpl in *. tauto.
Qed.

(** The permission guard lets a user through exactly when one of the
    user's role names stands for the permission; without a user both guards
    answer 401; the role guard looks at the name only, whatever scope it
    was asked for. *)
Theorem guards_decide_on_names (A : Type) (permission role_name : string)
    (func : Models.UserInfo -> outcome A) (u : Models.UserInfo) :
  require_permission permission func (Some u)
  = (if existsb (fun n => str_in permission (name_permissions n)) (Models.roles u)
     then func u
     else Raise (HTTPException 403 ("Permission required: " +:+ permission)))
  /\ require_permission permission func None
     = Raise (HTTPException 401 "Authentication required")
  /\ require_role role_name REALM func None
     = Raise (HTTPException 401 "Authentication required")
  /\ require_role role_name REALM func (Some u)
     = require_role role_name CLIENT func (Some u)
  /\ require_role role_name CLIENT func (Some u)
     = (if existsb (String.eqb role_name) (Models.roles u)
        then func u
        else Raise (HTTPException 403 ("Role required: " +:+ role_name))).
Proof.
  split; [|repeat split].
  unfold require_permission. cbv zeta.
  destruct (existsb (fun n => str_in permission (name_permissions n)) (Models.roles u))
    eqn:E.
  - rewrite bool_decide_eq_true_2; [reflexivity|].
    apply elem_of_session_permissions.
    apply existsb_exists in E as [n [Hin Hp]]. exists n. split; [assumption|].
    now apply str_in_In.
  - rewrite bool_decide_eq_false_2; [reflexivity|].
    intros H. apply elem_of_session_permissions in H as [n [Hin Hp]].
    assert (Ht : existsb (fun n => str_in permission (name_permissions n))
                         (Models.roles u) = true).
    { apply existsb_exists. exists n. split; [assumption|]. now apply str_in_In. }
    congruence.
Qed.

(** The endpoint guards of main.py against the flags that GET
    /auth/me/roles reports for the same session: the admin endpoint admits
    exactly the sessions with is_admin, the moderation endpoint exactly
    those with can_moderate; the analytics endpoint admits every session
    with can_view_analytics, and when it answers, its can_export and
    is_admin fields equal the flags can_export_data and is_admin. *)
Theorem endpoint_guards_follow_flags (u : Models.UserInfo) :
  let flags := Main.r_access_levels (Main.get_user_roles_detailed u) in
  flags !! "is_admin" = Some (admitted (Main.get_all_users_admin u))
  /\ flags !! "can_moderate" = Some (admitted (Main.moderate_content u))
  /\ (exists v, flags !! "can_view_analytics" = Some v
                /\ implb v (admitted (Main.view_analytics u)) = true)
  /\ match Main.view_analytics u with
     | Return r =>
         flags !! "can_export_data" = Some (Main.an_can_export r)
         /\ flags !! "is_admin" = Some (Main.an_is_admin r)
     | Raise e =>
         e = HTTPException 403 "Analytics access role required"
         /\ flags !! "can_view_analytics" = Some false
     end.
Proof.
  cbv zeta. unfold Main.get_user_roles_detailed. cbn [Main.r_access_levels].
  set (l := Models.roles u).
  split; [|split; [|split]].
  - unfold Main.get_all_users_admin. fold l.
    change (Main.access_levels_of_names l !! "is_admin") with (Some (str_in "admin" l)).
    now destruct (str_in "admin" l).
  - unfold Main.moderate_content. fold l.
    change (Main.access_levels_of_names l !! "can_moderate")
      with (Some (str_in "moderator" l || str_in "admin" l)).
    simpl. destruct (str_in "admin" l), (str_in "moderator" l); reflexivity.
  - exists (Main.any_role_in ["admin"; "analyst"; "dashboard-admin"] l).
    split; [reflexivity|].
    unfold Main.view_analytics. fold l. cbv zeta.
    unfold Main.any_role_in.
    rewrite <- (common_element l ["admin"; "analyst"; "dashboard-admin"]). simpl.
    destruct (str_in "admin" l), (str_in "analyst" l), (str_in "dashboard-user" l),
      (str_in "dashboard-admin" l); reflexivity.
  - unfold Main.view_analytics. fold l. cbv zeta.
    change (Main.access_levels_of_names l !! "can_export_data")
      with (Some (Main.any_role_in ["admin"; "dashboard-admin"] l)).
    change (Main.access_levels_of_names l !! "is_admin") with (Some (str_in "admin" l)).
    change (Main.access_levels_of_names l !! "can_view_analytics")
      with (Some (Main.any_role_in ["admin"; "analyst"; "dashboard-admin"] l)).
    unfold Main.any_role_in.
    rewrite <- (common_element l ["admin"; "dashboard-admin"]),
            <- (common_element l ["admin"; "analyst"; "dashboard-admin"]).
    simpl.
    destruct (str_in "admin" l), (str_in "analyst" l), (str_in "dashboard-user" l),
      (str_in "dashboard-admin" l); simpl; repeat split; reflexivity.
Qed.

End MoreRoleProperties.

(** A payload whose only role is a client role named "admin". *)
Lemma client_scoped_admin_is_admin_in_session_witness :
  In "admin" (Auth.flatten_roles Sample.client_admin_payload)
  /\ RoleManagement.rp_access_levels
       (RoleManagement.get_roles_for_frontend Sample.client_admin_payload)
       !! "is_admin" = Some false
  /\ Main.access_levels_of_names (Auth.flatten_roles Sample.client_admin_payload)
       !! "is_admin" = Some true.
Proof.
  assert (Hin : In "admin" (Auth.flatten_roles Sample.client_admin_payload))
    by (now left).
  split; [exact Hin|].
  destruct (client_scoped_admin_is_admin_in_session Sample.client_admin_payload Hin)
    as [Hfull [_ [Hflat _]]].
  - intros ra Hra. discriminate Hra.
  - split; assumption.
Defined.

(** ** Further properties of login and session tokens *)

Section MoreTokenProperties.

Import Jose Auth Specified.

Variable cfg : Config.

(** Without a ttl, or with a ttl of zero, the expiry is the configured
    lifetime after the issue time. *)
Lemma create_access_token_default (data : Fields) (expires_delta : option Z)
    (utcnow : Z) :
  expires_delta = None \/ expires_delta = Some 0 ->
  datetime_min <= utcnow <= datetime_max ->
  datetime_min <= utcnow + minutes (JWT_ACCESS_TOKEN_EXPIRE_MINUTES cfg) <= datetime_max ->
  create_access_token cfg data expires_delta utcnow
  = Return (encode {| c_fields := data;
                      c_exp := Some (utcnow + minutes (JWT_ACCESS_TOKEN_EXPIRE_MINUTES cfg)) |}
                   (JWT_SECRET_KEY cfg) (JWT_ALGORITHM cfg)).
Proof.
  intros Hd Hnow Hexpire. unfold create_access_token, timedelta, datetime_add.
  replace ((timedelta_min <=? minutes (JWT_ACCESS_TOKEN_EXPIRE_MINUTES cfg))
           && (minutes (JWT_ACCESS_TOKEN_EXPIRE_MINUTES cfg) <=? timedelta_max))
    with true.
  2:{ symmetry. apply andb_true_iff.
      unfold datetime_min, datetime_max, timedelta_min, timedelta_max in *.
      split; apply Z.leb_le; lia. }
  cbn [bind].
  replace ((datetime_min <=? utcnow + minutes (JWT_ACCESS_TOKEN_EXPIRE_MINUTES cfg))
           && (utcnow + minutes (JWT_ACCESS_TOKEN_EXPIRE_MINUTES cfg) <=? datetime_max))
    with true
    by (symmetry; apply andb_true_iff; split; apply Z.leb_le; lia).
  now destruct Hd as [-> | ->].
Qed.

(** An expiry that is not a [datetime] gives no token. *)
Lemma create_access_token_overflow (data : Fields) (ttl utcnow : Z) :
  ttl <> 0 ->
  ~ datetime_min <= utcnow + ttl <= datetime_max ->
  create_access_token cfg data (Some ttl) utcnow = Raise OverflowError.
Proof.
  intros Hnz Hout. unfold create_access_token, datetime_add.
  apply Z.eqb_neq in Hnz. rewrite Hnz.
  destruct ((datetime_min <=? utcnow + ttl) && (utcnow + ttl <=? datetime_max)) eqn:E;
    [|reflexivity].
  apply andb_true_iff in E as [E1 E2]. apply Z.leb_le in E1, E2. lia.
Qed.

(** A token issued with a non-zero ttl, for a claim dict with a subject
    and without a null under username, roles or user_id, is accepted up to
    and including the second in which it expires, and refused from the
    next second on: verification returns the identity fields of the claim
    dict exactly when the second of the request is not after the second of
    issue time plus ttl.  When issue time plus ttl is not a [datetime],
    issuing raises OverflowError instead. *)
Theorem verification_window (data : Fields) (s : string) (ttl t0 : Z) :
  ttl <> 0 ->
  f_sub data = Val s ->
  f_username data <> Null -> f_roles data <> Null -> f_user_id data <> Null ->
  (datetime_min <= t0 + ttl <= datetime_max ->
   exists token,
     create_access_token cfg data (Some ttl) t0 = Return token
     /\ forall t1,
          get_current_user cfg token t1
          = if timegm t1 <=? timegm (t0 + ttl)
            then Return (identity_of data)
            else Raise credentials_exception)
  /\ (~ datetime_min <= t0 + ttl <= datetime_max ->
      create_access_token cfg data (Some ttl) t0 = Raise OverflowError).
Proof.
  intros Hnz Hsub Hu Hr Hi. split.
  - intros Hrange. eexists.
    split; [now apply create_access_token_with_ttl|].
    intros t1. now apply verify_encoded with (s := s).
  - now apply create_access_token_overflow.
Qed.

(** A ttl of zero does not give a token that has expired already: the
    call is the call with no ttl at all, for every claim dict.  When the
    issue time and the issue time plus the configured lifetime are
    [datetime]s, it returns a token, and for a claim dict with a subject
    and without a null under username, roles or user_id that token is
    accepted until the second of its expiry, the configured lifetime after
    the issue time. *)
Theorem zero_ttl_means_default_lifetime (data : Fields) (t0 : Z) :
  create_access_token cfg data (Some 0) t0 = create_access_token cfg data None t0
  /\ (datetime_min <= t0 <= datetime_max ->
      datetime_min <= t0 + minutes (JWT_ACCESS_TOKEN_EXPIRE_MINUTES cfg) <= datetime_max ->
      exists token,
        create_access_token cfg data (Some 0) t0 = Return token
        /\ forall s t1,
             f_sub data = Val s ->
             f_username data <> Null -> f_roles data <> Null -> f_user_id data <> Null ->
             get_current_user cfg token t1
             = if timegm t1 <=? timegm (t0 + minutes (JWT_ACCESS_TOKEN_EXPIRE_MINUTES cfg))
               then Return (identity_of data)
               else Raise credentials_exception).
Proof.
  split; [reflexivity|]. intros Hnow Hexpire. eexists.
  split; [apply create_access_token_default; [now right | exact Hnow | exact Hexpire]|].
  intros s t1 Hsub Hu Hr Hi. now apply verify_encoded with (s := s).
Qed.

(** What [login] returns, taken apart. *)
Lemma login_returns (kc : Keycloak) (uname password : string) (t0 : Z)
    (tok : Models.Token Token) :
  Main.login cfg kc uname password t0 = Return tok ->
  exists u,
    authenticate_user kc uname password = Return u
    /\ tok = {| Models.access_token :=
                  encode {| c_fields := Main.token_data u;
                            c_exp := Some (t0 + minutes (JWT_ACCESS_TOKEN_EXPIRE_MINUTES cfg)) |}
                         (JWT_SECRET_KEY cfg) (JWT_ALGORITHM cfg);
                Models.token_type := "bearer";
                Models.expires_in := 1800 |}.
Proof.
  intros Hlogin. unfold Main.login in Hlogin.
  destruct (authenticate_user kc uname password) as [u|e]; simpl in Hlogin;
    [|destruct e; discriminate].
  destruct (create_access_token cfg (Main.token_data u) None t0) as [token|e] eqn:Ht;
    simpl in Hlogin; [|destruct e; discriminate].
  injection Hlogin as <-. exists u. split; [reflexivity|].
  apply create_access_token_returns in Ht as [-> _]. reflexivity.
Qed.

(** What a login hands out: the response always announces 1800 seconds,
    while the token itself is honoured until the second of login time plus
    the configured lifetime; until then every request that presents it is
    given the identity that [authenticate_user] returned, and GET /auth/me
    returns that identity. *)
Theorem login_session (kc : Keycloak) (uname password : string) (t0 : Z)
    (tok : Models.Token Token) :
  Main.login cfg kc uname password t0 = Return tok ->
  exists u,
    authenticate_user kc uname password = Return u
    /\ Models.expires_in tok = 1800
    /\ Models.token_type tok = "bearer"
    /\ forall t1,
         get_current_user cfg (Models.access_token tok) t1
         = if timegm t1 <=? timegm (t0 + minutes (JWT_ACCESS_TOKEN_EXPIRE_MINUTES cfg))
           then Return (Main.get_user_profile u)
           else Raise credentials_exception.
Proof.
  intros Hlogin. apply login_returns in Hlogin as [u [Hauth ->]].
  exists u. split; [exact Hauth|]. repeat split. intros t1.
  cbn [Models.access_token].
  unfold Main.get_user_profile. rewrite <- (identity_of_token_data u) at 2.
  apply verify_encoded with (s := Models.username u);
    [reflexivity | discriminate | discriminate | discriminate].
Qed.

(** The development username passes the "user" role check on every
    request made with a token from its login, while the token is valid. *)
Theorem development_user_passes_role_check (kc : Keycloak) (password : string)
    (t0 t1 : Z) (tok : Models.Token Token) :
  Main.login cfg kc "37099475" password t0 = Return tok ->
  timegm t1 <= timegm (t0 + minutes (JWT_ACCESS_TOKEN_EXPIRE_MINUTES cfg)) ->
  exists u,
    get_current_user cfg (Models.access_token tok) t1 = Return u
    /\ require_user_role u = Return u.
Proof.
  intros Hlogin Hfresh. apply login_returns in Hlogin as [u [Hauth ->]].
  exists u. split.
  - cbn [Models.access_token].
    rewrite <- (identity_of_token_data u) at 2.
    rewrite (verify_encoded cfg _ _ (Models.username u))
      by (reflexivity || discriminate).
    apply Z.leb_le in Hfresh. now rewrite Hfresh.
  - unfold require_user_role.
    destruct (authenticate_user_success _ _ _ _ Hauth)
      as [openid [access_token [token_info [_ [_ [_ Hroles]]]]]].
    assert (Hin : In "user" (Models.roles u))
      by (rewrite Hroles; apply development_user_has_user).
    apply str_in_In in Hin. now rewrite Hin.
Qed.

End MoreTokenProperties.

(** ** Identity-provider calls: errors and order *)

Section IdentityProviderProperties.

Import Models Auth Main.

(** Every failure of [authenticate_user] is an [HTTPException]: 500 when
    the client was never initialised, 401 when the identity provider
    refuses the credentials, and for any other failure 500 with one of two
    fixed messages, so the provider's own text is not passed on. *)
Theorem authenticate_user_failures (kc : Keycloak) (uname password : string) :
  (forall e, authenticate_user kc uname password = Raise e ->
             exists status detail, e = HTTPException status detail)
  /\ (keycloak_openid kc = None ->
      authenticate_user kc uname password
      = Raise (HTTPException 500 "Keycloak client not initialized"))
  /\ (forall openid msg,
        keycloak_openid kc = Some openid ->
        token openid uname password = Raise (KeycloakAuthenticationError msg) ->
        authenticate_user kc uname password
        = Raise (HTTPException 401 "Invalid credentials"))
  /\ (forall openid msg,
        keycloak_openid kc = Some openid ->
        token openid uname password = Raise (OtherException msg) ->
        authenticate_user kc uname password
        = Raise (HTTPException 500
            (if str_contains "unauthorized_client" msg
             then "Keycloak client configuration error. Please check KEYCLOAK_SETUP.md for configuration instructions."
             else "Authentication service error"))).
Proof.
  split; [|split; [|split]].
  - intros e. unfold authenticate_user.
    destruct (keycloak_openid kc) as [openid|].
    + match goal with
      | |- try_except ?body ?h = _ -> _ => destruct body as [u|e0]
      end; simpl; [discriminate|].
      destruct e0; simpl;
        try match goal with
            | |- context [if ?b then _ else _] => destruct b
            end;
        intros H; injection H as <-; eauto.
    + intros H. injection H as <-. eauto.
  - intros H. unfold authenticate_user. now rewrite H.
  - intros openid msg Hk Ht. unfold authenticate_user. now rewrite Hk, Ht.
  - intros openid msg Hk Ht. unfold authenticate_user. rewrite Hk, Ht. simpl.
    now destruct (str_contains "unauthorized_client" msg).
Qed.

(** [send_password_reset_email] answers True whenever the admin client
    exists, whether the address is unknown, the lookup fails, the user
    record has no id or the mail cannot be sent; it raises, with status
    500, only when the admin client was never initialised. *)
Theorem password_reset_email_outcome (kc : Keycloak) (email : string) :
  send_password_reset_email kc email
  = match keycloak_admin kc with
    | Some _ => Return true
    | None => Raise (HTTPException 500 "Keycloak admin client not initialized")
    end.
Proof.
  unfold send_password_reset_email.
  destruct (keycloak_admin kc) as [admin|]; [|reflexivity].
  destruct (get_users admin email) as [[|user users]|e]; simpl; try reflexivity.
  destruct (kc_id user) as [uid|]; simpl; [|reflexivity].
  destruct (send_update_account admin uid) as [[]|e]; reflexivity.
Qed.

(** Run a sequence of identity-provider calls by cases on each response. *)
Ltac by_responses :=
  repeat (cbn [wbind wtry wret wraise called fst snd app] in *;
          match goal with
          | |- context [match ?x with _ => _ end] =>
              lazymatch x with
              | context [match _ with _ => _ end] => fail
              | _ => destruct x eqn:?
              end
          end);
  cbn [wbind wtry wret wraise called fst snd app] in *.

(** [change_user_password] sets a password only for the user it was asked
    about, only to the new password, and only after the identity provider
    accepted the current password of that user's account; it returns True
    only when the provider accepted the change; and it fails with an
    [HTTPException] only. *)
Theorem password_set_only_after_check (kc : Keycloak) (users : KeycloakUsers)
    (uid current new : string) :
  let result := change_user_password kc users uid current new in
  (forall u p, In (call_set_user_password u p) (fst result) ->
     u = uid /\ p = new
     /\ exists openid uname access,
          keycloak_openid kc = Some openid
          /\ get_user users uid = Return {| acc_username := Some uname |}
          /\ token openid uname current = Return access)
  /\ (forall b, snd result = Return b ->
        b = true
        /\ In (call_set_user_password uid new) (fst result)
        /\ set_user_password users uid new = Return tt)
  /\ (forall e, snd result = Raise e ->
        exists status detail, e = HTTPException status detail).
Proof.
  cbv zeta. unfold change_user_password.
  split; [|split].
  - intros u p. by_responses; intros Hin; simpl in Hin;
      repeat match goal with
             | H : _ \/ _ |- _ => destruct H
             | H : False |- _ => contradiction
             | H : call_set_user_password _ _ = call_set_user_password _ _ |- _ =>
                 injection H as <- <-
             | H : _ = call_set_user_password _ _ |- _ => discriminate H
             end;
      (split; [reflexivity|]; split; [reflexivity|]);
      match goal with
      | Ho : keycloak_openid kc = Some ?o, Hu : acc_username ?a = Some ?n,
        Ht : token ?o ?n current = Return ?acc |- _ =>
          exists o, n, acc; repeat split; try assumption;
          destruct a; simpl in Hu; now subst
      end.
  - intros b. by_responses; intros H; try discriminate H;
      injection H as <-; repeat split;
      try (simpl; tauto);
      match goal with
      | Hs : set_user_password users uid new = Return ?x |- _ => now destruct x
      end.
  - intros e. by_responses; intros H; try discriminate H; injection H as <-; eauto.
Qed.

(** POST /auth/change-password makes exactly the calls of
    [change_user_password] for the identity behind the token, so the only
    password it can set is the caller's own; when it answers at all, the
    answer is success: the failure response of the handler is never
    produced. *)
Theorem change_password_route (kc : Keycloak) (users : KeycloakUsers)
    (request : PasswordChangeRequest) (current_user : UserInfo) :
  let result := change_password kc users request current_user in
  fst result
  = fst (change_user_password kc users (user_id current_user)
           (current_password request) (new_password request))
  /\ (forall u p, In (call_set_user_password u p) (fst result) ->
        u = user_id current_user /\ p = new_password request)
  /\ (forall r, snd result = Return r ->
        r = {| pc_success := true; pc_message := "Password changed successfully" |}).
Proof.
  cbv zeta. unfold change_password, change_user_password.
  split; [|split].
  - by_responses; rewrite ?app_nil_r; reflexivity.
  - intros u p. by_responses; intros Hin; simpl in Hin;
      repeat match goal with
             | H : _ \/ _ |- _ => destruct H
             | H : False |- _ => contradiction
             | H : call_set_user_password _ _ = call_set_user_password _ _ |- _ =>
                 injection H as <- <-
             | H : _ = call_set_user_password _ _ |- _ => discriminate H
             end;
      split; reflexivity.
  - intros r. by_responses; intros H; try discriminate H; now injection H as <-.
Qed.

(** Registration: when the account is created and the role is found and
    assigned, the caller gets the new id whatever happens to the
    verification mail; the account is always created enabled, unverified
    and with the verify-email action required; if the role cannot be found
    the account has been created all the same and nothing further is
    called; every failure reaches the caller as status 500. *)
Theorem registration_outcome (kc : Keycloak) (users : KeycloakUsers)
    (user : UserRegister) :
  let result := register kc users user in
  let payload := new_user_payload (dict_of_register user) in
  (forall admin uid role,
      keycloak_admin kc = Some admin ->
      create_user users payload = Return uid ->
      get_realm_role users (ur_role user) = Return role ->
      assign_realm_roles users uid [role] = Return tt ->
      result = ([call_create_user payload; call_get_realm_role (ur_role user);
                 call_assign_realm_roles uid [role]; call_send_verify_email uid],
                Return {| reg_user_id := uid;
                          reg_message := "User registered successfully" |}))
  /\ (forall sent, In (call_create_user sent) (fst result) ->
        rep_username sent = ur_username user
        /\ rep_enabled sent = true
        /\ rep_emailVerified sent = false
        /\ rep_requiredActions sent = ["VERIFY_EMAIL"])
  /\ (forall admin uid e,
        keycloak_admin kc = Some admin ->
        create_user users payload = Return uid ->
        get_realm_role users (ur_role user) = Raise e ->
        fst result = [call_create_user payload; call_get_realm_role (ur_role user)]
        /\ exists detail, snd result = Raise (HTTPException 500 detail))
  /\ (forall e, snd result = Raise e -> exists detail, e = HTTPException 500 detail).
Proof.
  cbv zeta. unfold register, create_user_in_keycloak.
  cbn [ud_role dict_of_register].
  split; [|split; [|split]].
  - intros admin uid role Hk Hc Hr Ha. rewrite Hk.
    cbn [wbind wtry called]. rewrite Hc. cbn [wbind wtry called]. rewrite Hr.
    cbn [wbind wtry called]. rewrite Ha.
    destruct (send_verify_email users uid) as [[]|e]; reflexivity.
  - intros sent. by_responses; intros Hin; simpl in Hin;
      repeat match goal with
             | H : _ \/ _ |- _ => destruct H
             | H : False |- _ => contradiction
             | H : call_create_user _ = call_create_user _ |- _ => injection H as <-
             | H : _ = call_create_user _ |- _ => discriminate H
             end;
      repeat split; reflexivity.
  - intros admin uid e Hk Hc Hr. rewrite Hk.
    cbn [wbind wtry called]. rewrite Hc. cbn [wbind wtry called]. rewrite Hr.
    cbn [wbind wtry called wraise fst snd app]. split; [reflexivity | eauto].
  - intros e. by_responses; intros H; try discriminate H; injection H as <-; eauto.
Qed.

End IdentityProviderProperties.

(** ** Further properties of the profile store *)

Section MoreProfileProperties.

Import Models UserService Main Specified.

Variable UUID : string -> string + N.

Lemma keycloak_id_not_found (k : N) (l : list User) :
  ~ In k (map keycloak_id l) ->
  existsb (has_keycloak_id k) l = false /\ List.find (has_keycloak_id k) l = None.
Proof.
  induction l as [|r l IH]; simpl; [now split|].
  intros H. assert (Hr : has_keycloak_id k r = false).
  { unfold has_keycloak_id. apply N.eqb_neq. intros E. apply H. now left. }
  rewrite Hr. simpl. apply IH. intros Hin. apply H. now right.
Qed.






(** For an identity without a profile, GET and PUT /users/me answer 404
    and GET /auth/status answers with has_profile false and the next step
    "complete_profile"; none of the three touches a row. *)
Theorem without_profile (now : Z) (current_user : UserInfo)
    (patch : UserProfileUpdate) (db : Db) (k : N) :
  UUID (user_id current_user) = inr k ->
  ~ In k (map keycloak_id (rows db)) ->
  get_my_profile UUID current_user db
  = (issue db [SELECT_keycloak_id k],
     Raise (HTTPException 404 "User profile not found. Please complete your profile."))
  /\ update_my_profile UUID now current_user patch db
     = (issue db [SELECT_keycloak_id k],
        Raise (HTTPException 404 "User profile not found. Create profile first."))
  /\ get_user_status UUID current_user db
     = (issue db [SELECT_keycloak_id k],
        Return (StatusObject
                  {| has_profile := false;
                     profile_complete := false;
                     next_step := "complete_profile";
                     user_info := Some (username current_user, email current_user,
                                        first_name current_user, last_name current_user);
                     profile_data := None |})).
Proof.
  intros Hu Hnot. destruct (keycloak_id_not_found k (rows db) Hnot) as [_ Hfind].
  unfold get_my_profile, update_my_profile, get_user_status, mtry, mbind,
    get_user_by_keycloak_id.
  rewrite Hu, Hfind. repeat split.
Qed.

(** GET /auth/status never reports has_profile true: a status object, when
    one is returned, is the one for a missing profile; for an identity
    with a profile the handler returns the bare profile object. *)
Theorem status_never_reports_a_profile (current_user : UserInfo) (db : Db) :
  (forall status,
      snd (get_user_status UUID current_user db) = Return (StatusObject status) ->
      has_profile status = false
      /\ next_step status = "complete_profile"
      /\ profile_data status = None)
  /\ (forall k row name,
        UUID (user_id current_user) = inr k ->
        List.find (has_keycloak_id k) (rows db) = Some row ->
        full_name row = Some name ->
        exists profile,
          snd (get_user_status UUID current_user db) = Return (ProfileObject profile)
          /\ upr_id profile = id row /\ upr_full_name profile = name)
  /\ rows (fst (get_user_status UUID current_user db)) = rows db.
Proof.
  unfold get_user_status, mtry, mbind, get_user_by_keycloak_id, profile_response.
  split; [|split].
  - intros status. destruct (UUID (user_id current_user)) as [msg|k]; cbn;
      [discriminate|].
    destruct (List.find (has_keycloak_id k) (rows db)) as [row|]; cbn.
    + destruct (full_name row); cbn; discriminate.
    + intros H. injection H as <-. repeat split.
  - intros k row name Hu Hfind Hname. rewrite Hu. cbn. rewrite Hfind. cbn.
    rewrite Hname. cbn. eexists. split; [reflexivity|]. split; reflexivity.
  - destruct (UUID (user_id current_user)) as [msg|k]; cbn; [reflexivity|].
    destruct (List.find (has_keycloak_id k) (rows db)) as [row|]; cbn; [|reflexivity].
    destruct (full_name row); reflexivity.
Qed.

Lemma update_keeps_ids (now : Z) (loaded current : User) (i : Z) (l : list User) :
  map id (map (fun r => if has_id i r then apply_update now loaded current r else r) l)
  = map id l.
Proof.
  induction l as [|r l IH]; simpl; [reflexivity|].
  rewrite IH. now destruct (has_id i r).
Qed.




Lemma keys_in_order_issue (db : Db) (stmts : list statement) :
  keys_in_order db -> keys_in_order (issue db stmts).
Proof. now unfold keys_in_order. Qed.

Lemma create_keeps_keys_in_order (now : Z) (kid : string)
    (profile_data : UserProfileCreate) (db : Db) :
  keys_in_order db ->
  keys_in_order (fst (create_user_profile UUID now kid profile_data db)).
Proof.
  unfold keys_in_order, create_user_profile, mtry, mbind, rollback, raise.
  intros [Hnd Hlt]. destruct (UUID kid) as [msg|k]; [now split|].
  pose proof (add_commit_refresh_effect now k profile_data db) as He.
  assert (Hnext : Forall (fun r => id r < serial db + 1) (rows db)).
  { eapply List.Forall_impl; [|exact Hlt]. intros r Hr. simpl in Hr. lia. }
  destruct (add_commit_refresh now k profile_data db) as [db' [db_user|e]].
  - destruct He as [Hrows [Hserial [Hid _]]]. cbn [fst]. rewrite Hrows, Hserial. split.
    + rewrite List.map_app. cbn. apply NoDup_app. split; [assumption|]. split.
      * intros x Hx Hs. apply list_elem_of_In in Hx. apply list_elem_of_In in Hs.
        destruct Hs as [<-|[]]. apply in_map_iff in Hx as [r [Hr_id Hr]].
        rewrite List.Forall_forall in Hlt. specialize (Hlt r Hr). simpl in Hlt. lia.
      * apply NoDup_singleton.
    + apply List.Forall_app. split; [exact Hnext|].
      constructor; [lia | constructor].
  - destruct He as [Hrows [Hserial _]].
    assert (Hgoal : NoDup (map id (rows db'))
                    /\ Forall (fun r => id r < serial db') (rows db')).
    { rewrite Hrows. split; [assumption|]. now destruct Hserial as [-> | ->]. }
    destruct e; exact Hgoal.
Qed.

(** An update never changes the id of a row. *)
Lemma update_user_profile_keeps_ids (now : Z) (user : User) (patch : UserProfileUpdate)
    (db : Db) :
  map id (rows (fst (update_user_profile now user patch db))) = map id (rows db).
Proof.
  destruct (update_user_profile_rows now user patch db) as [-> _].
  destruct (commit_object_effect now user (assign_fields user patch) db)
    as [_ [-> | ->]]; [reflexivity|].
  apply update_keeps_ids.
Qed.

Lemma update_keeps_keys_in_order (now : Z) (user : User) (patch : UserProfileUpdate)
    (db : Db) :
  keys_in_order db ->
  keys_in_order (fst (update_user_profile now user patch db)).
Proof.
  unfold keys_in_order. intros [Hnd Hlt].
  rewrite update_user_profile_keeps_ids. split; [exact Hnd|].
  destruct (update_user_profile_rows now user patch db) as [Hrows ->].
  rewrite Hrows.
  destruct (commit_object_effect now user (assign_fields user patch) db)
    as [-> [-> | ->]]; [exact Hlt|].
  apply List.Forall_forall. intros r Hr. apply in_map_iff in Hr as [r0 [<- Hr0]].
  rewrite List.Forall_forall in Hlt. specialize (Hlt r0 Hr0). simpl in Hlt.
  now destruct (has_id _ r0).
Qed.

(** The primary keys stay distinct and below the next value of the
    sequence through every write of the adapter and of the two writing
    routes; and an update, by the adapter or by its route, leaves the ids
    of the rows as they were, row by row. *)
Theorem keys_stay_in_order (now : Z) (db : Db) :
  keys_in_order db ->
  (forall kid profile_data,
      keys_in_order (fst (create_user_profile UUID now kid profile_data db)))
  /\ (forall user patch,
        keys_in_order (fst (update_user_profile now user patch db))
        /\ map id (rows (fst (update_user_profile now user patch db)))
           = map id (rows db))
  /\ (forall current_user profile_data,
        keys_in_order (fst (create_my_profile UUID now current_user profile_data db)))
  /\ (forall current_user patch,
        keys_in_order (fst (update_my_profile UUID now current_user patch db))
        /\ map id (rows (fst (update_my_profile UUID now current_user patch db)))
           = map id (rows db)).
Proof.
  intros H. split; [|split; [|split]].
  - intros kid profile_data. now apply create_keeps_keys_in_order.
  - intros user patch.
    split; [now apply update_keeps_keys_in_order | apply update_user_profile_keeps_ids].
  - intros current_user profile_data.
    unfold create_my_profile, mtry, mbind, get_user_by_keycloak_id.
    destruct (UUID (user_id current_user)) as [msg|k] eqn:Eu; cbn; [exact H|].
    destruct (List.find (has_keycloak_id k) (rows db)); cbn; [exact H|].
    pose proof (create_keeps_keys_in_order now (user_id current_user) profile_data
                  (issue db [SELECT_keycloak_id k])
                  (keys_in_order_issue db _ H)) as Hc.
    destruct (create_user_profile UUID now (user_id current_user) profile_data
                (issue db [SELECT_keycloak_id k])) as [db' [user|e]]; cbn in *.
    + unfold profile_response. destruct (full_name user); exact Hc.
    + unfold profile_except, raise.
      destruct (isinstance_ValueError e); [exact Hc|]. destruct e; exact Hc.
  - intros current_user patch.
    unfold update_my_profile, mtry, mbind, get_user_by_keycloak_id.
    destruct (UUID (user_id current_user)) as [msg|k] eqn:Eu; cbn;
      [now split|].
    destruct (List.find (has_keycloak_id k) (rows db)) as [user|]; cbn;
      [|now split].
    pose proof (conj (update_keeps_keys_in_order now user patch
                        (issue db [SELECT_keycloak_id k])
                        (keys_in_order_issue db _ H))
                     (update_user_profile_keeps_ids now user patch
                        (issue db [SELECT_keycloak_id k]))) as Hc.
    destruct (update_user_profile now user patch (issue db [SELECT_keycloak_id k]))
      as [db' [user'|e]]; cbn in *.
    + unfold profile_response. destruct (full_name user'); exact Hc.
    + unfold profile_except, raise.
      destruct (isinstance_ValueError e); [exact Hc|]. destruct e; exact Hc.
Qed.

End MoreProfileProperties.

(** ** Instances of the properties above on the sample data *)

(** Verification in the last second of validity, and in the next one. *)
Lemma verification_window_witness :
  let data := Main.token_data (Sample.session_of "bob" ["user"]) in
  60000000 <> 0
  /\ Jose.f_sub data = Jose.Val "bob"
  /\ Auth.datetime_min <= 0 + 60000000 <= Auth.datetime_max
  /\ exists token,
       Auth.create_access_token Sample.cfg data (Some 60000000) 0 = Return token
       /\ Auth.get_current_user Sample.cfg token 60999999
          = Return (Sample.session_of "bob" ["user"])
       /\ Auth.get_current_user Sample.cfg token 61000000
          = Raise Auth.credentials_exception.
Proof.
  cbv zeta.
  assert (Hrange : Auth.datetime_min <= 0 + 60000000 <= Auth.datetime_max)
    by (vm_compute; split; congruence).
  split; [discriminate|]. split; [reflexivity|]. split; [exact Hrange|].
  destruct (verification_window Sample.cfg
              (Main.token_data (Sample.session_of "bob" ["user"])) "bob" 60000000 0)
    as [Hwindow _];
    [discriminate | reflexivity | discriminate | discriminate | discriminate |].
  destruct (Hwindow Hrange) as [token [Hissued Hverify]].
  exists token. split; [exact Hissued|].
  rewrite (Hverify 60999999), (Hverify 61000000). split; reflexivity.
Defined.

(** A token with ttl zero, presented half an hour later. *)
Lemma zero_ttl_means_default_lifetime_witness :
  let data := Main.token_data (Sample.session_of "bob" ["user"]) in
  Auth.datetime_min <= 0 <= Auth.datetime_max
  /\ Auth.datetime_min <= 0 + Auth.minutes 30 <= Auth.datetime_max
  /\ exists token,
       Auth.create_access_token Sample.cfg data (Some 0) 0 = Return token
       /\ Auth.get_current_user Sample.cfg token 1800000000
          = Return (Sample.session_of "bob" ["user"]).
Proof.
  cbv zeta.
  assert (Hnow : Auth.datetime_min <= 0 <= Auth.datetime_max)
    by (vm_compute; split; congruence).
  assert (Hexpire : Auth.datetime_min <= 0 + Auth.minutes 30 <= Auth.datetime_max)
    by (vm_compute; split; congruence).
  split; [exact Hnow|]. split; [exact Hexpire|].
  destruct (zero_ttl_means_default_lifetime Sample.cfg
              (Main.token_data (Sample.session_of "bob" ["user"])) 0)
    as [_ Hdefault].
  destruct (Hdefault Hnow Hexpire) as [token [Hissued Hverify]].
  exists token. split; [exact Hissued|].
  rewrite (Hverify "bob" 1800000000);
    [reflexivity | reflexivity | discriminate | discriminate | discriminate].
Defined.

(** A login of "alice", who is granted "viewer". *)
Lemma login_session_witness :
  let tok := {| Models.access_token :=
                  Jose.encode
                    {| Jose.c_fields :=
                         Main.token_data (Sample.session_of "alice" ["viewer"]);
                       Jose.c_exp := Some (Auth.minutes 30) |}
                    (Auth.JWT_SECRET_KEY Sample.cfg) (Auth.JWT_ALGORITHM Sample.cfg);
                Models.token_type := "bearer";
                Models.expires_in := 1800 |} in
  Main.login Sample.cfg (Sample.granting ["viewer"]) "alice" "pw" 0 = Return tok
  /\ exists u,
       Auth.authenticate_user (Sample.granting ["viewer"]) "alice" "pw" = Return u
       /\ Models.expires_in tok = 1800.
Proof.
  cbv zeta. split; [reflexivity|].
  destruct (login_session Sample.cfg (Sample.granting ["viewer"]) "alice" "pw" 0 _ eq_refl)
    as [u [Hauth [Hexp _]]].
  exists u. split; assumption.
Defined.

(** The development username, granted "viewer" only, one minute after login. *)
Lemma development_user_passes_role_check_witness :
  let tok := {| Models.access_token :=
                  Jose.encode
                    {| Jose.c_fields :=
                         Main.token_data
                           (Sample.session_of "37099475" ["viewer"; "user"]);
                       Jose.c_exp := Some (Auth.minutes 30) |}
                    (Auth.JWT_SECRET_KEY Sample.cfg) (Auth.JWT_ALGORITHM Sample.cfg);
                Models.token_type := "bearer";
                Models.expires_in := 1800 |} in
  Main.login Sample.cfg (Sample.granting ["viewer"]) "37099475" "pw" 0 = Return tok
  /\ Jose.timegm 60000000 <= Jose.timegm (0 + Auth.minutes 30)
  /\ exists u,
       Auth.get_current_user Sample.cfg (Models.access_token tok) 60000000 = Return u
       /\ Auth.require_user_role u = Return u.
Proof.
  cbv zeta. split; [reflexivity|]. split; [vm_compute; discriminate|].
  apply (development_user_passes_role_check Sample.cfg (Sample.granting ["viewer"])
           "pw" 0 60000000 _ eq_refl).
  vm_compute. discriminate.
Defined.

(** A wrong password at an identity provider that checks passwords. *)
Lemma authenticate_user_failures_witness :
  Auth.authenticate_user Sample.checking_passwords "bob" "wrong"
  = Raise (HTTPException 401 "Invalid credentials").
Proof.
  eapply (proj1 (proj2 (proj2
            (authenticate_user_failures Sample.checking_passwords "bob" "wrong"))));
    reflexivity.
Defined.

(** A password change with the right current password. *)
Lemma password_set_only_after_check_witness :
  let result := Auth.change_user_password Sample.checking_passwords Sample.mail_down
                  "u1" "right" "fresh" in
  snd result = Return true
  /\ In (Auth.call_set_user_password "u1" "fresh") (fst result).
Proof.
  cbv zeta. split; [reflexivity|].
  destruct (password_set_only_after_check Sample.checking_passwords Sample.mail_down
              "u1" "right" "fresh") as [_ [Hdone _]].
  destruct (Hdone true eq_refl) as [_ [Hin _]]. exact Hin.
Defined.

(** The same change through the route, for the identity of the token. *)
Lemma change_password_route_witness :
  let request := {| Models.current_password := "right";
                    Models.new_password := "fresh" |} in
  let result := Main.change_password Sample.checking_passwords Sample.mail_down request
                  (Sample.session_of "bob" ["user"]) in
  exists r, snd result = Return r /\ Models.pc_success r = true.
Proof.
  cbv zeta.
  destruct (change_password_route Sample.checking_passwords Sample.mail_down
              {| Models.current_password := "right"; Models.new_password := "fresh" |}
              (Sample.session_of "bob" ["user"])) as [_ [_ Hanswer]].
  eexists. split; [reflexivity|].
  exact (f_equal Models.pc_success (Hanswer _ eq_refl)).
Defined.

(** A registration while the verification mail cannot be sent. *)
Lemma registration_outcome_witness :
  snd (Main.register Sample.checking_passwords Sample.mail_down Sample.new_registration)
  = Return {| Main.reg_user_id := "new-id";
              Main.reg_message := "User registered successfully" |}
  /\ Auth.send_verify_email Sample.mail_down "new-id"
     = Raise (OtherException "SMTP not configured").
Proof.
  split; [|reflexivity].
  destruct (registration_outcome Sample.checking_passwords Sample.mail_down
              Sample.new_registration) as [Hok _].
  erewrite Hok; reflexivity.
Defined.



(** The three profile reads and writes on an empty table. *)
Lemma without_profile_witness :
  let bob := Sample.session_of "bob" [] in
  snd (Main.get_my_profile Sample.UUID bob Sample.empty_db)
  = Raise (HTTPException 404 "User profile not found. Please complete your profile.")
  /\ snd (Main.update_my_profile Sample.UUID 200 bob Sample.country_patch Sample.empty_db)
     = Raise (HTTPException 404 "User profile not found. Create profile first.").
Proof.
  cbv zeta.
  assert (Hnot : ~ In (UserService.keycloak_id Sample.stored_profile)
                      (map UserService.keycloak_id (UserService.rows Sample.empty_db)))
    by (intros []).
  destruct (without_profile Sample.UUID 200 (Sample.session_of "bob" [])
              Sample.country_patch Sample.empty_db _ eq_refl Hnot)
    as [Hget [Hput _]].
  rewrite Hget, Hput. split; reflexivity.
Defined.

(** GET /auth/status for the identity of the stored row. *)
Lemma status_never_reports_a_profile_witness :
  exists profile,
    snd (Main.get_user_status Sample.UUID (Sample.session_of "bob" []) Sample.db1)
    = Return (Main.ProfileObject profile)
    /\ Models.upr_full_name profile = "Bob".
Proof.
  destruct (status_never_reports_a_profile Sample.UUID (Sample.session_of "bob" [])
              Sample.db1) as [_ [Hprofile _]].
  destruct (Hprofile _ Sample.stored_profile "Bob" eq_refl eq_refl eq_refl)
    as [profile [Hrun [_ Hname]]].
  exists profile. split; assumption.
Defined.


(** The sample table, a second profile added to it, and the stored
    profile updated. *)
Lemma keys_stay_in_order_witness :
  Specified.keys_in_order Sample.db1
  /\ Specified.keys_in_order
       (fst (UserService.create_user_profile Sample.UUID 200
               "00000000-0000-0000-0000-000000000001" Sample.new_profile Sample.db1))
  /\ map UserService.id
         (UserService.rows
            (fst (UserService.update_user_profile 200 Sample.stored_profile
                    Sample.country_patch Sample.db1)))
     = map UserService.id (UserService.rows Sample.db1).
Proof.
  assert (H : Specified.keys_in_order Sample.db1).
  { split; [simpl; apply NoDup_singleton|].
    constructor; [simpl; lia | constructor]. }
  split; [exact H|].
  destruct (keys_stay_in_order Sample.UUID 200 Sample.db1 H) as [Hcreate [Hupdate _]].
  split; [apply Hcreate | apply Hupdate].
Defined.
